(** * The search-and-extract pipeline of simple_webagent

    A shallow embedding of [src/simple_webagent/websearch/web_search.py]:
    the credential chain, the clamping of the result count, the provider
    loop with its fallback policy, the content extractor and the two entry
    points [search_web] and [search_web_structured].

    Conventions of the embedding.
    - Python [str] is [string]: one [ascii] is one character, the code
      point of that number (0 to 255).  On these characters the
      whitespace class and [lower] are Python's; text with code points
      from 256 on is not representable.
    - Python [int] is [Z]; list positions and [len] are [nat].
    - [Optional[T]] is [option T]; truthiness is written out.
    - Everything the code obtains from outside (clock, rate limiter,
      provider, target pages, trafilatura, dateutil) is a field of [Env].
    - Effects are threaded through the monad [M]: a world holding the
      number of clock readings taken and the log of outbound calls, with
      Python exceptions as the [Raise] result.
    - [print] calls are logging only and are left out. *)

From Stdlib Require Import ZArith Lia Ascii String DecimalString Bool.
From stdpp Require Import base strings list gmap.

Local Open Scope Z_scope.

(** ** Python string operations used by the pipeline *)

Module PyStr.

(** [str.isspace] / the regex class [\s] on the code points below 256:
    TAB, LF, VT, FF, CR, FS, GS, RS, US, SPACE, NEL (133) and the
    no-break space (160). *)
Definition isspace (c : ascii) : bool :=
  let n := nat_of_ascii c in
  ((9 <=? n)%nat && (n <=? 13)%nat) || ((28 <=? n)%nat && (n <=? 32)%nat)
  || Nat.eqb n 133 || Nat.eqb n 160.

(** [c.lower()] on the code points below 256: A to Z, and the capital
    letters 192 to 222 other than the multiplication sign (215). *)
Definition lower_char (c : ascii) : ascii :=
  let n := nat_of_ascii c in
  if ((65 <=? n)%nat && (n <=? 90)%nat)
     || ((192 <=? n)%nat && (n <=? 222)%nat && negb (Nat.eqb n 215))
  then ascii_of_nat (n + 32) else c.

(** [s.lower()] *)
Fixpoint lower (s : string) : string :=
  match s with
  | EmptyString => EmptyString
  | String c r => String (lower_char c) (lower r)
  end.

Fixpoint lstrip (s : string) : string :=
  match s with
  | EmptyString => EmptyString
  | String c r => if isspace c then lstrip r else s
  end.

Fixpoint rstrip (s : string) : string :=
  match s with
  | EmptyString => EmptyString
  | String c r =>
      match rstrip r with
      | EmptyString => if isspace c then EmptyString else String c EmptyString
      | r' => String c r'
      end
  end.

(** [s.strip()] *)
Definition strip (s : string) : string := lstrip (rstrip s).

(** Truthiness of a [str]: non-empty. *)
Definition truthy (s : string) : bool :=
  match s with EmptyString => false | _ => true end.

(** [needle in hay] *)
Fixpoint contains (needle hay : string) : bool :=
  String.prefix needle hay ||
  match hay with
  | EmptyString => false
  | String _ r => contains needle r
  end.

(** [s[:n]] *)
Fixpoint take (n : nat) (s : string) : string :=
  match n, s with
  | S n', String c r => String c (take n' r)
  | _, _ => EmptyString
  end.

(** [sep.join(parts)] *)
Fixpoint join (sep : string) (parts : list string) : string :=
  match parts with
  | [] => EmptyString
  | [p] => p
  | p :: rest => p +:+ sep +:+ join sep rest
  end.

(** [s.split(sep)] for a one-character separator. *)
Fixpoint split_aux (sep : ascii) (cur : string) (s : string) : list string :=
  match s with
  | EmptyString => [cur]
  | String c r =>
      if Ascii.eqb c sep then cur :: split_aux sep EmptyString r
      else split_aux sep (cur +:+ String c EmptyString) r
  end.

Definition split (sep : ascii) (s : string) : list string :=
  split_aux sep EmptyString s.

(** [s.replace("www.", "")]: every occurrence, left to right. *)
Fixpoint remove_www (s : string) : string :=
  match s with
  | String "w" (String "w" (String "w" (String "." r))) => remove_www r
  | String c r => String c (remove_www r)
  | EmptyString => EmptyString
  end.

(** [re.sub(r"<[^>]+>", " ", s)].  At a ['<'] the pattern matches exactly
    when the next ['>'] exists and is not the very next character; the
    match then runs up to that ['>'].  [pending] holds the characters read
    since an open ['<'] whose closing ['>'] has not been seen yet
    ([None] outside of any candidate tag). *)
Fixpoint sub_tags_aux (pending : option string) (s : string) : string :=
  match s with
  | EmptyString =>
      match pending with
      | None => EmptyString
      | Some buf => String "<" buf
      end
  | String c r =>
      match pending with
      | None =>
          if Ascii.eqb c "<" then sub_tags_aux (Some EmptyString) r
          else String c (sub_tags_aux None r)
      | Some buf =>
          if Ascii.eqb c ">" then
            match buf with
            | EmptyString => String "<" (String ">" (sub_tags_aux None r))
            | _ => String " " (sub_tags_aux None r)
            end
          else sub_tags_aux (Some (buf +:+ String c EmptyString)) r
      end
  end.

Definition sub_tags (s : string) : string := sub_tags_aux None s.

(** [re.sub(r"\s+", " ", s)]: [in_run] tells that the previous character
    belonged to a whitespace run already replaced by one space. *)
Fixpoint collapse_ws_aux (in_run : bool) (s : string) : string :=
  match s with
  | EmptyString => EmptyString
  | String c r =>
      if isspace c then
        if in_run then collapse_ws_aux true r
        else String " " (collapse_ws_aux true r)
      else String c (collapse_ws_aux false r)
  end.

Definition collapse_ws (s : string) : string := collapse_ws_aux false s.

(** [str(n)] for an [int]. *)
Definition of_Z (z : Z) : string := NilZero.string_of_int (Z.to_int z).
Definition of_nat (n : nat) : string := NilZero.string_of_uint (Nat.to_uint n).

End PyStr.

(** ** Results and exceptions *)

(** The outcome of evaluating a Python expression: a value, or a raised
    [Exception] carried as its [str(ex)]. *)
Inductive Res (A : Type) : Type :=
  | Ok (a : A)
  | Raise (msg : string).
Arguments Ok {A} a.
Arguments Raise {A} msg.

(** [try: c except Exception: d] for pure computations. *)
Definition res_default {A} (c : Res A) (d : A) : A :=
  match c with Ok a => a | Raise _ => d end.

(** ** Data *)

(** One hit of the provider's JSON ([meta] in the code): a dict read only
    through the keys below, each of which may be absent. *)
Record Hit := mkHit {
  h_title : option string;
  h_link : option string;
  h_date : option string;
  h_source : option string }.

(** [resp.json()] for a provider response: the two lists the code reads
    with [.get("news", [])] and [.get("organic", [])]. *)
Record JsonBody := mkJson {
  j_news : option (list Hit);
  j_organic : option (list Hit) }.

(** An [httpx.Response] of the provider.  It has no [__bool__] or
    [__len__], so [not resp] holds only for [None]. *)
Record ProviderResponse := mkPResp {
  p_status_code : Z;
  p_json : Res JsonBody }.

(** An [httpx.Response] of a target page: the status, the [Content-Type]
    header ([headers.get]) and the decoded body ([.text]). *)
Record PageResponse := mkPage {
  g_status_code : Z;
  g_content_type : option string;
  g_text : Res string }.

(** One element of [asyncio.gather(..., return_exceptions=True)]. *)
Inductive FetchOutcome :=
  | FetchExc (msg : string)
  | FetchResp (r : PageResponse).

(** The JSON payload posted to the provider; location, gl and hl are
    constants. *)
Record Payload := mkPayload {
  pl_q : string;
  pl_num : Z;
  pl_news : bool }.

(** Outbound calls that a run leaves in the log. *)
Inductive Event :=
  | EvRecord (duration : Z) (num_results : option Z)
  | EvPost (endpoint key : string) (payload : Payload).

(** What the pipeline obtains from outside. *)
Record Env := mkEnv {
  SERPER_API_KEY : string;
  SERPER_API_KEY_FALLBACK : string;
  (** the k-th reading of [time.time()], in a fixed unit *)
  time_reading : nat -> Z;
  (** [limiter.hit(rate_limit, "global")] *)
  limiter_hit_result : Res bool;
  (** [client.post(endpoint, headers=..(key), json=payload)] at attempt idx *)
  provider : nat -> string -> string -> Payload -> Res ProviderResponse;
  (** [client.get(u)] for the i-th url of the batch *)
  page : nat -> string -> FetchOutcome;
  (** [trafilatura.extract(html, url=..., ...)] *)
  trafilatura_extract : string -> option string -> Res (option string);
  (** [dateparser.parse(s, fuzzy=True)] as year, month, day *)
  dateparser_parse : string -> Res (Z * Z * Z);
  (** [datetime.now().isoformat()] when the i-th item is built *)
  datetime_now_iso : nat -> string }.

Definition SERPER_SEARCH_ENDPOINT : string := "https://google.serper.dev/search".
Definition SERPER_NEWS_ENDPOINT : string := "https://google.serper.dev/news".

(** ** Credential chain and result count *)

(** Truthiness of an [Optional[str]]. *)
Definition opt_truthy (o : option string) : bool :=
  match o with Some s => PyStr.truthy s | None => false end.

(** [x in l] for a list of strings. *)
Definition str_in (x : string) (l : list string) : bool :=
  existsb (String.eqb x) l.

Section Chain.
Context (E : Env).

(** The primary key appended first: [api_key] when truthy, else the
    configured [SERPER_API_KEY] when truthy, else nothing. *)
Definition primary_keys (api_key : option string) : list string :=
  match api_key with
  | Some k => if PyStr.truthy k then [k]
              else if PyStr.truthy (SERPER_API_KEY E) then [SERPER_API_KEY E] else []
  | None => if PyStr.truthy (SERPER_API_KEY E) then [SERPER_API_KEY E] else []
  end.

(** [fb_key = fallback_api_key if fallback_api_key else SERPER_API_KEY_FALLBACK] *)
Definition fb_key (fallback_api_key : option string) : string :=
  match fallback_api_key with
  | Some k => if PyStr.truthy k then k else SERPER_API_KEY_FALLBACK E
  | None => SERPER_API_KEY_FALLBACK E
  end.

(** The list [keys_in_order] both entry points build. *)
Definition keys_in_order (api_key fallback_api_key : option string)
    (use_fallback : bool) : list string :=
  let keys := primary_keys api_key in
  let fb := fb_key fallback_api_key in
  if use_fallback && PyStr.truthy fb then
    if negb (str_in fb keys) then keys ++ [fb] else keys
  else keys.

(** The resolved primary key: the explicit argument, else the configured
    default (possibly empty). *)
Definition resolved_primary (api_key : option string) : string :=
  if opt_truthy api_key then default EmptyString api_key else SERPER_API_KEY E.

End Chain.

(** [search_web]: [None] becomes 4, then [max(1, min(20, num_results))]. *)
Definition clamp_search_web (num_results : option Z) : Z :=
  let n := match num_results with None => 4 | Some n => n end in
  Z.max 1 (Z.min 20 n).

(** [search_web_structured]: [max(1, min(20, num_results or 4))]; the
    operand of [or] is falsy for [None] and for [0]. *)
Definition fetch_num (num_results : option Z) : Z :=
  let n := match num_results with
           | None => 4
           | Some n => if n =? 0 then 4 else n
           end in
  Z.max 1 (Z.min 20 n).

(** [search_type] is reset to "search" unless it is "search" or "news". *)
Definition normalize_search_type (search_type : string) : string :=
  if String.eqb search_type "search" || String.eqb search_type "news"
  then search_type else "search".

(** ** The effect monad *)

(** The world a call runs in: how many clock readings were taken and the
    log of outbound calls, oldest first. *)
Record World := mkWorld {
  clock : nat;
  log : list Event }.

Definition M (A : Type) : Type := World -> Res A * World.

Definition ret {A} (a : A) : M A := fun w => (Ok a, w).

Definition bind {A B} (c : M A) (k : A -> M B) : M B :=
  fun w =>
    match c w with
    | (Ok a, w') => k a w'
    | (Raise e, w') => (Raise e, w')
    end.

(** A pure computation that may raise. *)
Definition lift {A} (r : Res A) : M A := fun w => (r, w).

(** [try: c except Exception as e: h e]; the effects of [c] up to the
    exception are kept. *)
Definition try_except {A} (c : M A) (h : string -> M A) : M A :=
  fun w =>
    match c w with
    | (Ok a, w') => (Ok a, w')
    | (Raise e, w') => h e w'
    end.

Definition fmap {A B} (f : A -> B) (c : M A) : M B :=
  bind c (fun a => ret (f a)).

Notation "'let*' x ':=' c 'in' k" := (bind c (fun x => k))
  (at level 10, x pattern, c at level 100, k at level 200).

Definition res_bind {A B} (c : Res A) (k : A -> Res B) : Res B :=
  match c with Ok a => k a | Raise e => Raise e end.

Notation "'let+' x ':=' c 'in' k" := (res_bind c (fun x => k))
  (at level 10, x pattern, c at level 100, k at level 200).

Definition nl : string := String "010" EmptyString.

Section Pipeline.
Context (E : Env).

(** [time.time()] *)
Definition time_time : M Z :=
  fun w => (Ok (time_reading E (clock w)), mkWorld (S (clock w)) (log w)).

(** Modelled from the spec: [record_request] lives in the module
    [analytics], which is not among the sources.  The core reports
    (elapsed seconds, requested result count) to it and goes on; the
    call is kept as an [EvRecord] entry of the log. *)
Definition record_request (duration : Z) (num_results : option Z) : M unit :=
  fun w => (Ok tt, mkWorld (clock w) (log w ++ [EvRecord duration num_results])).

(** [await limiter.hit(rate_limit, "global")] *)
Definition limiter_hit : M bool := lift (limiter_hit_result E).

(** [await client.post(endpoint, headers=_build_serper_headers(key), json=payload)] *)
Definition client_post (idx : nat) (endpoint key : string) (payload : Payload)
    : M ProviderResponse :=
  fun w => (provider E idx endpoint key payload,
            mkWorld (clock w) (log w ++ [EvPost endpoint key payload])).

(** [duration = time.time() - start_time] *)
Definition elapsed (start_time : Z) : M Z :=
  let* now := time_time in ret (now - start_time).

(** *** Provider client: the loop over [enumerate(keys_in_order)] *)

Definition fallback_statuses : list Z :=
  [400; 401; 403; 429; 402; 500; 502; 503; 504].

Definition in_fallback_statuses (code : Z) : bool :=
  existsb (Z.eqb code) fallback_statuses.

(** How one iteration ends: [break] with the values of [resp] and
    [last_error], or on to the next key. *)
Inductive Step :=
  | Break (resp : option ProviderResponse) (last_error : option string)
  | Continue (last_error : option string).

(** The body of the loop for the key at position [idx]; [n] is
    [len(keys_in_order)]. *)
Definition key_attempt (use_fallback : bool) (endpoint : string) (payload : Payload)
    (n idx : nat) (key : string) (last_error : option string) : M Step :=
  try_except
    (let* r := client_post idx endpoint key payload in
     if p_status_code r =? 200 then ret (Break (Some r) last_error)
     else if negb use_fallback || Nat.eqb idx (n - 1) then ret (Break (Some r) last_error)
     else if negb (in_fallback_statuses (p_status_code r)) then ret (Break (Some r) last_error)
     else ret (Continue last_error))
    (fun ex =>
       if negb use_fallback || Nat.eqb idx (n - 1) then ret (Break None (Some ex))
       else ret (Continue (Some ex))).

(** The iterations from position [idx] on.  The result is the pair
    ([resp], [last_error]) the loop leaves. *)
Fixpoint try_keys (use_fallback : bool) (endpoint : string) (payload : Payload)
    (n idx : nat) (keys : list string) (last_error : option string)
    : M (option ProviderResponse * option string) :=
  match keys with
  | [] => ret (None, last_error)
  | key :: rest =>
      let* step := key_attempt use_fallback endpoint payload n idx key last_error in
      match step with
      | Break resp last_error' => ret (resp, last_error')
      | Continue last_error' =>
          try_keys use_fallback endpoint payload n (S idx) rest last_error'
      end
  end.

(** The outcomes of a post after which the loop goes on to the next key,
    when there is one and fallback is enabled: a status of the fallback
    list, or an exception. *)
Definition retryable (out : Res ProviderResponse) : bool :=
  match out with
  | Ok r => in_fallback_statuses (p_status_code r)
  | Raise _ => true
  end.

(** The log entries left by posting with the keys [ks], in order. *)
Definition posts (endpoint : string) (payload : Payload) (ks : list string)
    : list Event :=
  map (fun k => EvPost endpoint k payload) ks.

(** *** Content extractor *)

(** The two [re.sub] calls and the final [strip] of the naive fallback. *)
Definition naive_text (html : string) : string :=
  PyStr.strip (PyStr.collapse_ws (PyStr.sub_tags html)).

(** The first argument of the extractor as Python sees it: a [str] or
    anything else. *)
Inductive PyArg :=
  | AStr (s : string)
  | ANotStr.

(** [trafilatura.extract(html, url=url or None, ...) or ""] *)
Definition extract_or_empty (html url : string) : Res string :=
  let+ out := trafilatura_extract E html
                (if PyStr.truthy url then Some url else None) in
  Ok (default EmptyString out).

Definition _robust_extract_main_text (html : PyArg) (url : string) : Res string :=
  match html with
  | ANotStr => Ok EmptyString
  | AStr html =>
      if negb (PyStr.truthy (PyStr.strip html)) then Ok EmptyString
      else
        let text := res_default (extract_or_empty html url) EmptyString in
        if PyStr.truthy text && PyStr.truthy (PyStr.strip text)
        then Ok (PyStr.strip text)
        else Ok (res_default (Ok (naive_text html)) EmptyString)
  end.

(** The gate: ["text/html" in content_type or "<html" in text[:1000].lower()].
    [or] reads [response.text] only when the first test fails. *)
Definition looks_like_html (content_type : string) (text : Res string) : Res bool :=
  if PyStr.contains "text/html" content_type then Ok true
  else let+ t := text in Ok (PyStr.contains "<html" (PyStr.lower (PyStr.take 1000 t))).

(** [(response.headers.get("Content-Type", "") or "").lower()]; the header
    lookup does not raise here, so the [except] around it is not entered. *)
Definition content_type_of (r : PageResponse) : string :=
  PyStr.lower (default EmptyString (g_content_type r)).

(** *** Result assembler, plain-text variant *)

(** [d[key]] on a dict whose entry may be absent: [KeyError]. *)
Definition getitem (key : string) (v : option string) : Res string :=
  match v with
  | Some s => Ok s
  | None => Raise ("'" +:+ key +:+ "'")
  end.

(** [url.split("/")[2].replace("www.", "")] *)
Definition domain_of (url : string) : Res string :=
  match PyStr.split "/" url !! 2%nat with
  | Some host => Ok (PyStr.remove_www host)
  | None => Raise "list index out of range"
  end.

Fixpoint zeros (n : nat) : string :=
  match n with
  | O => EmptyString
  | S k => String "0" (zeros k)
  end.

Definition zfill (width : nat) (s : string) : string :=
  zeros (width - String.length s) +:+ s.

(** [.strftime("%Y-%m-%d")] as CPython prints it through the C library
    on Linux: month and day zero-padded to two digits, the year with the
    digits it has (99 for the year 99). *)
Definition strftime_ymd (d : Z * Z * Z) : string :=
  let '(y, m, dd) := d in
  PyStr.of_Z y +:+ "-" +:+ zfill 2 (PyStr.of_Z m) +:+ "-" +:+
  zfill 2 (PyStr.of_Z dd).

Definition is_digit (c : ascii) : bool :=
  let n := nat_of_ascii c in (48 <=? n)%nat && (n <=? 57)%nat.

Definition two_digits (s : string) : bool :=
  match s with
  | String a (String b EmptyString) => is_digit a && is_digit b
  | _ => false
  end.

Definition four_digits (s : string) : bool :=
  match s with
  | String a (String b r) => is_digit a && is_digit b && two_digits r
  | _ => false
  end.

(** The shape YYYY-MM-DD. *)
Definition iso_shape (s : string) : bool :=
  match s with
  | String y1 (String y2 (String y3 (String y4 (String "-"
      (String m1 (String m2 (String "-" r))))))) =>
      four_digits (String y1 (String y2 (String y3 (String y4 EmptyString))))
      && two_digits (String m1 (String m2 EmptyString)) && two_digits r
  | _ => false
  end.

(** The [try] block that computes [date_iso] in news mode. *)
Definition date_iso_of (meta : Hit) : string :=
  let date_str := default EmptyString (h_date meta) in
  if PyStr.truthy date_str then
    res_default (let+ d := dateparser_parse E date_str in Ok (strftime_ymd d))
                "Unknown"
  else "Unknown".

(** [body] of one loop iteration of [search_web]: [None] unless the gate
    passes and the extractor returns. *)
Definition sw_body (meta : Hit) (r : PageResponse) : option string :=
  res_default
    (let+ looks := looks_like_html (content_type_of r) (g_text r) in
     if looks then
       let+ t := g_text r in
       let+ b := _robust_extract_main_text (AStr t) (default EmptyString (h_link meta)) in
       Ok (Some b)
     else Ok None)
    None.

Definition is_news (search_type : string) : bool := String.eqb search_type "news".

(** The formatted chunk of one item. *)
Definition sw_chunk (search_type : string) (meta : Hit) (body : string) : Res string :=
  (* the progress message formats meta['link'] *)
  let+ _ := getitem "link" (h_link meta) in
  if is_news search_type then
    let date_iso := date_iso_of meta in
    let+ title := getitem "title" (h_title meta) in
    let source := default "Unknown" (h_source meta) in
    let+ link := getitem "link" (h_link meta) in
    Ok ("## " +:+ title +:+ nl +:+
        "**Source:** " +:+ source +:+ "   " +:+
        "**Date:** " +:+ date_iso +:+ nl +:+
        "**URL:** " +:+ link +:+ nl +:+ nl +:+
        PyStr.strip body +:+ nl)
  else
    let+ link := getitem "link" (h_link meta) in
    let+ domain := domain_of link in
    let+ title := getitem "title" (h_title meta) in
    Ok ("## " +:+ title +:+ nl +:+ "**Domain:** " +:+ domain +:+ nl +:+
        "**URL:** " +:+ link +:+ nl +:+ nl +:+ PyStr.strip body +:+ nl).

(** One iteration of [for meta, response in zip(results, responses)]:
    [None] stands for [continue]. *)
Definition sw_item (search_type : string) (meta : Hit) (response : FetchOutcome)
    : Res (option string) :=
  match response with
  | FetchExc _ => Ok None
  | FetchResp r =>
      let body := sw_body meta r in
      if negb (opt_truthy body) then Ok None
      else let+ chunk := sw_chunk search_type meta (default EmptyString body) in
           Ok (Some chunk)
  end.

(** The loop, with [chunks] and [successful_extractions] as accumulators. *)
Fixpoint sw_loop (search_type : string) (pairs : list (Hit * FetchOutcome))
    (chunks : list string) (successful_extractions : nat)
    : Res (list string * nat) :=
  match pairs with
  | [] => Ok (chunks, successful_extractions)
  | (meta, response) :: rest =>
      let+ c := sw_item search_type meta response in
      match c with
      | None => sw_loop search_type rest chunks successful_extractions
      | Some chunk =>
          sw_loop search_type rest (chunks ++ [chunk]) (S successful_extractions)
      end
  end.

(** [[r["link"] for r in results]] *)
Fixpoint links_of (results : list Hit) : Res (list string) :=
  match results with
  | [] => Ok []
  | r :: rest =>
      let+ u := getitem "link" (h_link r) in
      let+ us := links_of rest in
      Ok (u :: us)
  end.

(** [asyncio.gather] over [client.get(u) for u in urls] with
    [return_exceptions=True]: one outcome per url, in the order of the urls. *)
Definition gather (urls : list string) : list FetchOutcome :=
  imap (page E) urls.


(** A provider hit with the keys the plain-text assembler indexes
    directly: a title, and a link with a host component (at least three
    parts around "/", as in scheme://host/...). *)
Definition hit_wf (h : Hit) : Prop :=
  is_Some (h_title h)
  /\ exists u, h_link h = Some u /\ is_Some (PyStr.split "/" u !! 2%nat).

(** Whether an outcome of the batch gives [search_web] a non-empty body. *)
Definition usable (p : Hit * FetchOutcome) : bool :=
  match p.2 with
  | FetchExc _ => false
  | FetchResp r => opt_truthy (sw_body p.1 r)
  end.

(** The urls of the hits, [""] where the key is absent. *)
Definition links (results : list Hit) : list string :=
  map (fun h => default EmptyString (h_link h)) results.

(** *** Result assembler, structured variant *)

(** The per-result dict of [search_web_structured]; [raw_html] and
    [error] are keys that may be absent. *)
Record Item := mkItem {
  i_title : string;
  i_url : string;
  i_domain : string;
  i_date : string;
  i_source : string;
  i_status_code : option Z;
  i_fetched_at : string;
  i_web_text_for_chunking : string;
  i_cleaned_text : string;
  i_serper_style_text : string;
  i_raw_html : option string;
  i_error : option string }.

(** [item["url"].split("/")[2].replace("www.", "") if item["url"] else ""],
    with [""] on any exception. *)
Definition st_domain (url : string) : string :=
  if PyStr.truthy url then res_default (domain_of url) EmptyString else EmptyString.

(** [cleaned] after the gate and the extractor: [None] unless the gate
    passes and the extractor returns. *)
Definition st_extracted (url : string) (r : PageResponse) : option string :=
  res_default
    (let+ is_html := looks_like_html (content_type_of r) (g_text r) in
     if is_html then
       let+ t := g_text r in
       let+ c := _robust_extract_main_text (AStr t) url in
       Ok (Some c)
     else Ok None)
    None.

(** [cleaned] after the block [if not cleaned or not str(cleaned).strip()],
    which replaces it by the naive text of [response.text]. *)
Definition st_cleaned (url : string) (r : PageResponse) : string :=
  let cleaned := st_extracted url r in
  if negb (opt_truthy cleaned)
     || negb (PyStr.truthy (PyStr.strip (default EmptyString cleaned)))
  then res_default (let+ text_src := g_text r in Ok (naive_text text_src)) EmptyString
  else default EmptyString cleaned.

Definition serper_block (title domain url cleaned_text : string) : string :=
  "## " +:+ title +:+ nl +:+ "**Domain:** " +:+ domain +:+ nl +:+
  "**URL:** " +:+ url +:+ nl +:+ nl +:+ cleaned_text +:+ nl.

(** One iteration of [for meta, response in zip(serper_items, responses)]:
    the item appended to [results_out], the block appended to
    [serper_blocks] if any, and whether [successful_extractions] grows.
    Each statement of the outer [try] that can raise here sits in an inner
    [try] of its own, so the outer handler is not entered. *)
Definition build_item (search_type : string) (include_html : bool) (idx : nat)
    (meta : Hit) (response : FetchOutcome) : Item * option string * bool :=
  let title := default EmptyString (h_title meta) in
  let url := default EmptyString (h_link meta) in
  let date := if is_news search_type then default EmptyString (h_date meta) else EmptyString in
  let source := if is_news search_type then default EmptyString (h_source meta) else EmptyString in
  let fetched_at := datetime_now_iso E idx in
  match response with
  | FetchExc msg =>
      (mkItem title url EmptyString date source None fetched_at
              EmptyString EmptyString EmptyString None (Some msg), None, false)
  | FetchResp r =>
      let domain := st_domain url in
      let raw_html :=
        if include_html then Some (res_default (g_text r) EmptyString) else None in
      let cleaned := st_cleaned url r in
      let cleaned_text := if PyStr.truthy cleaned then PyStr.strip cleaned else EmptyString in
      let block := serper_block title domain url cleaned_text in
      (mkItem title url domain date source (Some (g_status_code r)) fetched_at
              block cleaned_text block raw_html None,
       Some block, PyStr.truthy cleaned)
  end.

Fixpoint st_loop (search_type : string) (include_html : bool) (idx : nat)
    (pairs : list (Hit * FetchOutcome)) (results_out : list Item)
    (serper_blocks : list string) (successful_extractions : nat)
    : list Item * list string * nat :=
  match pairs with
  | [] => (results_out, serper_blocks, successful_extractions)
  | (meta, response) :: rest =>
      let '(item, block, ok) := build_item search_type include_html idx meta response in
      st_loop search_type include_html (S idx) rest
        (results_out ++ [item])
        (match block with Some b => serper_blocks ++ [b] | None => serper_blocks end)
        (if ok then S successful_extractions else successful_extractions)
  end.

(** [[it.get("link") for it in serper_items if it.get("link")]] *)
Definition truthy_links (serper_items : list Hit) : list string :=
  omap (fun it => match h_link it with
                  | Some u => if PyStr.truthy u then Some u else None
                  | None => None
                  end) serper_items.

(** *** The entry points *)

Definition endpoint_of (search_type : string) : string :=
  if is_news search_type then SERPER_NEWS_ENDPOINT else SERPER_SEARCH_ENDPOINT.

(** [resp.json().get("news", [])] or [resp.json().get("organic", [])] *)
Definition hits_of (search_type : string) (body : JsonBody) : list Hit :=
  default [] (if is_news search_type then j_news body else j_organic body).

(** The [return] statements of [search_web], in source order; the last
    one is the handler of the outer [try]. *)
Inductive TextExit :=
  | TNoKey
  | TRateLimit
  | TRequestFailed (last_error : option string)
  | TApiStatus (code : Z)
  | TNoResults
  | TNoContent (n_results : nat)
  | TSuccess (chunks : list string) (successful_extractions n_results : nat)
  | TCaught (msg : string).

(** The body of [search_web] up to the choice of the [return] statement. *)
Definition search_web_exit (query search_type : string) (num_results : option Z)
    (api_key fallback_api_key : option string) (use_fallback : bool) : M TextExit :=
  let* start_time := time_time in
  let keys := keys_in_order E api_key fallback_api_key use_fallback in
  match keys with
  | [] => let* _ := record_request 0 num_results in ret TNoKey
  | _ :: _ =>
    let num_results := clamp_search_web num_results in
    let search_type := normalize_search_type search_type in
    try_except
      (let* ok := limiter_hit in
       if negb ok then
         let* duration := elapsed start_time in
         let* _ := record_request duration (Some num_results) in
         ret TRateLimit
       else
         let endpoint := endpoint_of search_type in
         let payload := mkPayload query num_results (is_news search_type) in
         let* (resp, last_error) :=
           try_keys use_fallback endpoint payload (length keys) 0 keys None in
         match resp with
         | None =>
             let* duration := elapsed start_time in
             let* _ := record_request duration (Some num_results) in
             ret (TRequestFailed last_error)
         | Some resp =>
             if negb (p_status_code resp =? 200) then
               let* duration := elapsed start_time in
               let* _ := record_request duration (Some num_results) in
               ret (TApiStatus (p_status_code resp))
             else
               let* body := lift (p_json resp) in
               let results := hits_of search_type body in
               match results with
               | [] =>
                   let* duration := elapsed start_time in
                   let* _ := record_request duration (Some num_results) in
                   ret TNoResults
               | _ :: _ =>
                   let* urls := lift (links_of results) in
                   let responses := gather urls in
                   let* (chunks, successful_extractions) :=
                     lift (sw_loop search_type (zip results responses) [] 0) in
                   match chunks with
                   | [] =>
                       let* duration := elapsed start_time in
                       let* _ := record_request duration (Some num_results) in
                       ret (TNoContent (length results))
                   | _ :: _ =>
                       let* duration := elapsed start_time in
                       let* _ := record_request duration (Some num_results) in
                       ret (TSuccess chunks successful_extractions (length results))
                   end
               end
         end)
      (fun e =>
         (* duration = time.time() - start_time, then the return *)
         let* _ := elapsed start_time in
         ret (TCaught e))
  end.

(** [x or 'unknown error'] for the optional [last_error]. *)
Definition or_unknown_error (last_error : option string) : string :=
  match last_error with
  | Some e => if PyStr.truthy e then e else "unknown error"
  | None => "unknown error"
  end.

(** The string each [return] statement of [search_web] builds. *)
Definition render_text (query search_type : string) (x : TextExit) : string :=
  match x with
  | TNoKey =>
      "Error: No SERPER API key configured. Provide api_key parameter or set " +:+
      "SERPER_API_KEY. Optionally set SERPER_API_KEY_FALLBACK for automatic fallback."
  | TRateLimit =>
      "Error: Rate limit exceeded. Please try again later (limit: 360 requests per hour)."
  | TRequestFailed last_error =>
      "Error: Search request failed. Details: " +:+ or_unknown_error last_error +:+ "."
  | TApiStatus code =>
      "Error: Search API returned status " +:+ PyStr.of_Z code +:+
      ". Please check your API key and try again."
  | TNoResults =>
      "No " +:+ search_type +:+ " results found for query: '" +:+ query +:+
      "'. Try a different search term or search type."
  | TNoContent n =>
      "Found " +:+ PyStr.of_nat n +:+ " " +:+ search_type +:+ " results for '" +:+
      query +:+ "', but couldn't extract readable content from any of them. " +:+
      "The websites might be blocking automated access."
  | TSuccess chunks successful_extractions n =>
      ("Successfully extracted content from " +:+ PyStr.of_nat successful_extractions +:+
       " out of " +:+ PyStr.of_nat n +:+ " " +:+ search_type +:+
       " results for query: '" +:+ query +:+ "'" +:+ nl +:+ nl +:+ "---" +:+ nl +:+ nl)
      +:+ PyStr.join (nl +:+ "---" +:+ nl) chunks
  | TCaught e =>
      "Error occurred while searching: " +:+ e +:+
      ". Please try again or check your query."
  end.

Definition search_web (query search_type : string) (num_results : option Z)
    (api_key fallback_api_key : option string) (use_fallback : bool) : M string :=
  fmap (render_text query (normalize_search_type search_type))
       (search_web_exit query search_type num_results api_key fallback_api_key
                        use_fallback).

(** The [return] statements of [search_web_structured], in source order. *)
Inductive StructExit :=
  | SRateLimit
  | SRequestFailed (last_error : option string)
  | SApiStatus (code : Z)
  | SNoResults
  | SSuccess (results_out : list Item) (serper_blocks : list string)
             (successful_extractions : nat)
  | SCaught (msg : string).

Definition search_web_structured_exit (query search_type : string)
    (num_results : option Z) (include_html : bool)
    (api_key fallback_api_key : option string) (use_fallback : bool) : M StructExit :=
  let* start_time := time_time in
  let fetch_num := fetch_num num_results in
  let search_type := normalize_search_type search_type in
  let keys := keys_in_order E api_key fallback_api_key use_fallback in
  try_except
    (let* ok := limiter_hit in
     if negb ok then
       let* duration := elapsed start_time in
       let* _ := record_request duration (Some fetch_num) in
       ret SRateLimit
     else
       let endpoint := endpoint_of search_type in
       let payload := mkPayload query fetch_num (is_news search_type) in
       let* (resp, last_error) :=
         try_keys use_fallback endpoint payload (length keys) 0 keys None in
       match resp with
       | None =>
           let* duration := elapsed start_time in
           let* _ := record_request duration (Some fetch_num) in
           ret (SRequestFailed last_error)
       | Some resp =>
           if negb (p_status_code resp =? 200) then
             let* duration := elapsed start_time in
             let* _ := record_request duration (Some fetch_num) in
             ret (SApiStatus (p_status_code resp))
           else
             let* body := lift (p_json resp) in
             let serper_items := hits_of search_type body in
             match serper_items with
             | [] =>
                 let* duration := elapsed start_time in
                 let* _ := record_request duration (Some fetch_num) in
                 ret SNoResults
             | _ :: _ =>
                 let urls := truthy_links serper_items in
                 let responses := gather urls in
                 let '(results_out, serper_blocks, successful_extractions) :=
                   st_loop search_type include_html 0 (zip serper_items responses)
                           [] [] 0 in
                 let* duration := elapsed start_time in
                 let* _ := record_request duration (Some fetch_num) in
                 ret (SSuccess results_out serper_blocks successful_extractions)
             end
       end)
    (fun e =>
       (* duration = time.time() - start_time; record_request is not awaited *)
       let* _ := elapsed start_time in
       ret (SCaught e)).

(** The values stored in the returned dict. *)
Inductive Val :=
  | VStr (s : string)
  | VItems (items : list Item).

(** The dict each [return] statement of [search_web_structured] builds. *)
Definition render_structured (query search_type : string) (x : StructExit)
    : gmap string Val :=
  let base (results : list Item) (summary : string) : gmap string Val :=
    <["query" := VStr query]>
      (<["search_type" := VStr search_type]>
         (<["results" := VItems results]> (<["summary" := VStr summary]> ∅))) in
  match x with
  | SRateLimit =>
      <["error" := VStr "rate_limit_exceeded"]> (base [] "Rate limit exceeded")
  | SRequestFailed last_error =>
      <["error" := VStr "request_failed"]>
        (base [] ("Request error: " +:+ or_unknown_error last_error))
  | SApiStatus code =>
      <["error" := VStr ("api_status_" +:+ PyStr.of_Z code)]>
        (base [] ("Search API status " +:+ PyStr.of_Z code))
  | SNoResults =>
      <["error" := VStr "no_results"]>
        (base [] ("No " +:+ search_type +:+ " results for '" +:+ query +:+ "'"))
  | SSuccess results_out serper_blocks successful_extractions =>
      <["serper_text_joined" :=
          VStr (match serper_blocks with
                | [] => EmptyString
                | _ => PyStr.join (nl +:+ "---" +:+ nl) serper_blocks
                end)]>
        (base results_out
           ("Fetched " +:+ PyStr.of_nat (length results_out) +:+
            " results; successfully extracted content from " +:+
            PyStr.of_nat successful_extractions))
  | SCaught e =>
      <["error" := VStr "exception"]> (base [] ("Error: " +:+ e))
  end.

Definition search_web_structured (query search_type : string)
    (num_results : option Z) (include_html : bool)
    (api_key fallback_api_key : option string) (use_fallback : bool)
    : M (gmap string Val) :=
  fmap (render_structured query (normalize_search_type search_type))
       (search_web_structured_exit query search_type num_results include_html
                                   api_key fallback_api_key use_fallback).

End Pipeline.

(** ** Concrete scenarios *)

Module Scenario.

Definition hit (title link : string) : Hit :=
  mkHit (Some title) (Some link) None None.

Definition html_page (text : string) : FetchOutcome :=
  FetchResp (mkPage 200 (Some "text/html; charset=utf-8") (Ok text)).

Definition w0 : World := mkWorld 0 [].

(** A provider that answers 200 with the given organic and news hits,
    pages served by [pages], an extractor that finds nothing, a date
    parser that knows one date.  The clock advances by 10 per reading. *)
Definition env_with (key fb : string) (limiter : Res bool)
    (prov : nat -> string -> Res ProviderResponse)
    (pages : nat -> string -> FetchOutcome) : Env :=
  mkEnv key fb (fun k => 10 * Z.of_nat k) limiter
        (fun idx _ k _ => prov idx k) pages
        (fun _ _ => Ok None)
        (fun s => if String.eqb s "May 1, 2024" then Ok (2024, 5, 1) else Raise "Unknown string format")
        (fun _ => "2024-05-01T12:00:00").

Definition ok_with (organic news : list Hit) : Res ProviderResponse :=
  Ok (mkPResp 200 (Ok (mkJson (Some news) (Some organic)))).

(** Two organic hits, both pages served as HTML. *)
Definition two_hits : list Hit :=
  [hit "First" "https://www.a.example/x"; hit "Second" "https://b.example/y"].

Definition env_two : Env :=
  env_with "K1" "K2" (Ok true)
    (fun _ _ => ok_with two_hits [])
    (fun i _ => if Nat.eqb i 0 then FetchExc "ConnectTimeout"
                else html_page "<html><body><p>Hello  world</p></body></html>").

(** The primary key is over quota, the fallback key works. *)
Definition env_fallback : Env :=
  env_with "K1" "K2" (Ok true)
    (fun _ k => if String.eqb k "K1" then Ok (mkPResp 429 (Raise "no body"))
                else ok_with two_hits [])
    (fun _ _ => html_page "<html><body><p>Hello  world</p></body></html>").

Definition payload0 : Payload := mkPayload "q" 4 false.

(** The provider answers 200 with a body that is not JSON. *)
Definition env_bad_json : Env :=
  env_with "K1" "K2" (Ok true)
    (fun _ _ => Ok (mkPResp 200 (Raise "Expecting value: line 1 column 1 (char 0)")))
    (fun _ _ => FetchExc "unused").

(** No key configured anywhere. *)
Definition env_no_key : Env :=
  env_with "" "" (Ok true) (fun _ _ => ok_with two_hits []) (fun _ _ => FetchExc "unused").

(** The first hit has no link; the second page is served. *)
Definition hits_missing_link : list Hit :=
  [mkHit (Some "First") None None None; hit "Second" "https://b.example/y"].

Definition env_missing_link : Env :=
  env_with "K1" "K2" (Ok true)
    (fun _ _ => ok_with hits_missing_link [])
    (fun _ u => if String.eqb u "https://b.example/y"
                then html_page "<html><p>page of the second hit</p></html>"
                else FetchExc "unused").

(** A page that is not HTML. *)
Definition plain_page : PageResponse :=
  mkPage 200 (Some "text/plain") (Ok "plain words").

End Scenario.

(** ** The pipeline step that calls [search_web] *)

(** The content of the 'query' stuff as [perform_web_search] reads it:
    with [getattr] and a default, so each attribute may be absent
    (for [api_key], absent and [None] are read alike). *)
Record QueryContent := mkQuery {
  q_query_text : option string;
  q_search_type : option string;
  q_num_results : option Z;
  q_api_key : option string }.

Section Step.
Context (E : Env).

(** [_run_coro_in_thread]: the coroutine runs to its end in a thread that
    is joined at once; its value is returned and its exception re-raised. *)
Definition _run_coro_in_thread (coro : M string) : M string :=
  fun w =>
    match coro w with
    | (Ok value, w') => (Ok value, w')
    | (Raise error, w') => (Raise error, w')
    end.

(** [working_memory] stands for the outcome of
    [working_memory.get_stuff("query").content]. *)
Definition perform_web_search (working_memory : Res QueryContent) : M string :=
  let* q := lift working_memory in
  let query_text := default EmptyString (q_query_text q) in
  let search_type := default "search" (q_search_type q) in
  let num_results := default 3 (q_num_results q) in
  let api_key := q_api_key q in
  if negb (PyStr.truthy query_text) then ret "Error: No query text provided"
  else
    _run_coro_in_thread
      (search_web E query_text search_type (Some num_results) api_key None true).

End Step.

(** ** Predicates used to state properties *)

(** [c] does not occur in [s]. *)
Fixpoint no_char (c : ascii) (s : string) : bool :=
  match s with
  | EmptyString => true
  | String a r => negb (Ascii.eqb a c) && no_char c r
  end.

(** Every whitespace character of [s] is a single space that does not
    follow another space; [after_space] tells that the character before
    [s] was a space. *)
Fixpoint single_spaced (after_space : bool) (s : string) : bool :=
  match s with
  | EmptyString => true
  | String c r =>
      if PyStr.isspace c then
        Ascii.eqb c " " && negb after_space && single_spaced true r
      else single_spaced false r
  end.

Definition is_post (ev : Event) : bool :=
  match ev with
  | EvPost _ _ _ => true
  | EvRecord _ _ => false
  end.

(** An item of the structured report that stands for a fetched page. *)
Definition fetched (item : Item) : bool :=
  match i_status_code item with Some _ => true | None => false end.

Definition has_text (item : Item) : bool := PyStr.truthy (i_cleaned_text item).

(** ** Further scenarios and predicates *)

(** The rate limiter refuses the call. *)
Definition env_limited : Env :=
  Scenario.env_with "K1" "K2" (Ok false)
    (fun _ _ => Scenario.ok_with Scenario.two_hits [])
    (fun _ _ => FetchExc "unused").

(** Trafilatura finds the main text of every page. *)
Definition env_extracts : Env :=
  mkEnv "K1" "" (fun k => 10 * Z.of_nat k) (Ok true)
        (fun _ _ _ _ => Scenario.ok_with Scenario.two_hits [])
        (fun _ _ => Scenario.html_page "<html><body><nav>menu</nav><p>Main text</p></body></html>")
        (fun _ _ => Ok (Some "  Main text  "))
        (fun _ => Raise "Unknown string format")
        (fun _ => "2024-05-01T12:00:00").

(** What holds of every item of a structured report built with the given
    [include_html]. *)
Definition item_consistent (include_html : bool) (item : Item) : Prop :=
  i_web_text_for_chunking item = i_serper_style_text item
  /\ PyStr.strip (i_cleaned_text item) = i_cleaned_text item
  /\ match i_status_code item with
     | Some _ =>
         i_error item = None
         /\ i_web_text_for_chunking item
            = serper_block (i_title item) (i_domain item) (i_url item)
                           (i_cleaned_text item)
         /\ (is_Some (i_raw_html item) <-> include_html = true)
     | None =>
         is_Some (i_error item)
         /\ i_cleaned_text item = EmptyString
         /\ i_web_text_for_chunking item = EmptyString
         /\ i_domain item = EmptyString
         /\ i_raw_html item = None
     end.

(** The run of the scenario with two hits, the first fetch failing. *)
Definition run_two : Res StructExit * World :=
  search_web_structured_exit Scenario.env_two "q" "search" (Some 2) true
    None None true Scenario.w0.

(** The same scenario through [search_web]. *)
Definition run_two_text : Res TextExit * World :=
  search_web_exit Scenario.env_two "q" "search" (Some 2) None None true
    Scenario.w0.

(** The provider answers 200 with organic hits only. *)
Definition env_no_hits : Env :=
  Scenario.env_with "K1" "" (Ok true)
    (fun _ _ => Ok (mkPResp 200 (Ok (mkJson None (Some Scenario.two_hits)))))
    (fun _ _ => FetchExc "unused").

(** The first hit has a link but no title; every page is served as HTML. *)
Definition hits_missing_title : list Hit :=
  [mkHit None (Some "https://a.example/x") None None;
   Scenario.hit "Second" "https://b.example/y"].

Definition env_missing_title : Env :=
  Scenario.env_with "K1" "K2" (Ok true)
    (fun _ _ => Scenario.ok_with hits_missing_title [])
    (fun _ _ => Scenario.html_page "<html><body><p>Hello  world</p></body></html>").

(** A news hit whose date the parser reads as 1 May of the year 99. *)
Definition old_news_hit : Hit :=
  mkHit (Some "Old") (Some "https://n.example/old") (Some "0099-05-01") None.

Definition env_old_date : Env :=
  mkEnv "K1" "" (fun k => 10 * Z.of_nat k) (Ok true)
        (fun _ _ _ _ => Scenario.ok_with [] [old_news_hit])
        (fun _ _ => Scenario.html_page "<html><p>text</p></html>")
        (fun _ _ => Ok None)
        (fun s => if String.eqb s "0099-05-01" then Ok (99, 5, 1)
                  else Raise "Unknown string format")
        (fun _ => "2024-05-01T12:00:00").

(** ** Proof automation *)

(** Unfolds the monad operations of a run. *)
Ltac run_monad :=
  cbv beta iota delta [bind ret try_except fmap time_time elapsed
                       record_request limiter_hit lift];
  cbn [clock log fst snd].

(** Closes a path of a run once its exit is in constructor form: [ks]
    are the keys posted on that path. *)
Ltac finish_run ks :=
  cbn [negb clock log]; cbv beta iota;
  lazymatch goal with
  | |- exists x _, _ /\ (Ok ?y, _) = _ => exists y, ks
  end;
  split; [assumption || apply prefix_nil
         | cbn [clock log posts map app];
           rewrite <- ?app_assoc, ?app_nil_r; reflexivity].

(** * Properties *)

(** ** Strings *)

Lemma lstrip_idem (s : string) : PyStr.lstrip (PyStr.lstrip s) = PyStr.lstrip s.
Proof.
  induction s as [|c r IH]; simpl; [reflexivity|].
  destruct (PyStr.isspace c) eqn:Hc; [exact IH|].
  simpl. rewrite Hc. reflexivity.
Qed.

Lemma rstrip_cons_fix (c : ascii) (r : string) :
  PyStr.rstrip (String c r) = String c r -> PyStr.isspace c = true ->
  PyStr.rstrip r = r.
Proof.
  simpl. intros H Hc. destruct (PyStr.rstrip r) eqn:Hr.
  - rewrite Hc in H. discriminate.
  - inversion H. reflexivity.
Qed.

Lemma rstrip_lstrip_fix (u : string) :
  PyStr.rstrip u = u -> PyStr.rstrip (PyStr.lstrip u) = PyStr.lstrip u.
Proof.
  induction u as [|c r IH]; intros H; [reflexivity|].
  simpl PyStr.lstrip. destruct (PyStr.isspace c) eqn:Hc.
  - apply IH. eapply rstrip_cons_fix; eauto.
  - exact H.
Qed.

Lemma rstrip_cons (c : ascii) (r : string) :
  PyStr.rstrip (String c r) =
  match PyStr.rstrip r with
  | EmptyString => if PyStr.isspace c then EmptyString else String c EmptyString
  | r' => String c r'
  end.
Proof. reflexivity. Qed.

Lemma rstrip_idem (s : string) : PyStr.rstrip (PyStr.rstrip s) = PyStr.rstrip s.
Proof.
  induction s as [|c r IH]; [reflexivity|].
  rewrite rstrip_cons. destruct (PyStr.rstrip r) as [|a t] eqn:Hr.
  - destruct (PyStr.isspace c) eqn:Hc; [reflexivity|].
    rewrite rstrip_cons. simpl. rewrite Hc. reflexivity.
  - rewrite rstrip_cons, IH. reflexivity.
Qed.

Lemma strip_idem (s : string) : PyStr.strip (PyStr.strip s) = PyStr.strip s.
Proof.
  unfold PyStr.strip.
  rewrite (rstrip_lstrip_fix (PyStr.rstrip s)) by apply rstrip_idem.
  apply lstrip_idem.
Qed.

Lemma rstrip_nil_inv (c : ascii) (r : string) :
  PyStr.rstrip (String c r) = EmptyString ->
  PyStr.isspace c = true /\ PyStr.rstrip r = EmptyString.
Proof.
  rewrite rstrip_cons. destruct (PyStr.rstrip r); [|discriminate].
  destruct (PyStr.isspace c); [auto | discriminate].
Qed.

Lemma strip_nil_rstrip (s : string) :
  PyStr.strip s = EmptyString -> PyStr.rstrip s = EmptyString.
Proof.
  unfold PyStr.strip. pose proof (rstrip_idem s) as Hfix.
  revert Hfix. generalize (PyStr.rstrip s) as u. clear s.
  induction u as [|c r IH]; intros Hfix Hl; [reflexivity|].
  simpl in Hl. destruct (PyStr.isspace c) eqn:Hc; [|discriminate].
  pose proof (rstrip_cons_fix c r Hfix Hc) as Hr.
  specialize (IH Hr Hl). subst r.
  rewrite rstrip_cons in Hfix. simpl in Hfix. rewrite Hc in Hfix. discriminate.
Qed.

Lemma sub_tags_blank (s : string) :
  PyStr.rstrip s = EmptyString -> PyStr.sub_tags s = s.
Proof.
  unfold PyStr.sub_tags. induction s as [|c r IH]; intros H; [reflexivity|].
  apply rstrip_nil_inv in H as [Hc Hr]. simpl.
  destruct (Ascii.eqb c "<") eqn:Heq.
  - apply Ascii.eqb_eq in Heq. subst c. discriminate.
  - rewrite IH by assumption. reflexivity.
Qed.

Lemma collapse_ws_blank (s : string) (in_run : bool) :
  PyStr.rstrip s = EmptyString ->
  PyStr.rstrip (PyStr.collapse_ws_aux in_run s) = EmptyString.
Proof.
  revert in_run. induction s as [|c r IH]; intros in_run H; [reflexivity|].
  apply rstrip_nil_inv in H as [Hc Hr]. simpl. rewrite Hc.
  destruct in_run; [auto|].
  rewrite rstrip_cons, IH by assumption. reflexivity.
Qed.

(** A body made of whitespace only has an empty naive text. *)
Lemma naive_text_blank (html : string) :
  PyStr.strip html = EmptyString -> naive_text html = EmptyString.
Proof.
  intros H. apply strip_nil_rstrip in H.
  unfold naive_text, PyStr.strip, PyStr.collapse_ws.
  rewrite sub_tags_blank, collapse_ws_blank by assumption. reflexivity.
Qed.

Lemma naive_text_stripped (html : string) :
  PyStr.strip (naive_text html) = naive_text html.
Proof. unfold naive_text. apply strip_idem. Qed.

(** The no-break space (160) is whitespace like any other: it is
    collapsed and stripped, and a body made of it alone is blank. *)
Lemma naive_text_no_break_space :
  naive_text (String "a" (String "160" (String "160" (String "b"
               (String "160" EmptyString))))) = "a b"
  /\ PyStr.strip (String "160" (String "133" EmptyString)) = EmptyString.
Proof. split; reflexivity. Qed.

Lemma truthy_false (s : string) : PyStr.truthy s = false -> s = EmptyString.
Proof. destruct s; [reflexivity | discriminate]. Qed.

(** ** Content extractor *)

(** C8.  Whatever its first argument is (a string of any content, or not
    a string at all), whatever the url, and whatever trafilatura does
    (return text, return nothing, raise), [_robust_extract_main_text]
    does not raise: it returns a string. *)
Theorem robust_extract_never_raises (E : Env) (html : PyArg) (url : string) :
  exists text : string, _robust_extract_main_text E html url = Ok text.
Proof.
  unfold _robust_extract_main_text. destruct html as [h|]; [|eauto].
  destruct (negb (PyStr.truthy (PyStr.strip h))); [eauto|].
  destruct (PyStr.truthy _ && PyStr.truthy _); eauto.
Qed.

(** When trafilatura raises, returns nothing, or returns only whitespace,
    the extractor returns the naive text of the body. *)
Lemma robust_extract_fallback (E : Env) (html url : string) :
  PyStr.strip (res_default (extract_or_empty E html url) EmptyString) = EmptyString ->
  _robust_extract_main_text E (AStr html) url = Ok (naive_text html).
Proof.
  intros H. unfold _robust_extract_main_text.
  destruct (PyStr.truthy (PyStr.strip html)) eqn:Hh; simpl.
  - rewrite H. simpl. rewrite andb_false_r. reflexivity.
  - apply truthy_false in Hh. rewrite naive_text_blank by assumption. reflexivity.
Qed.

(** ** Provider client *)

Lemma world_eta (w : World) : w = mkWorld (clock w) (log w ++ []).
Proof. destruct w; simpl. rewrite app_nil_r. reflexivity. Qed.

(** One iteration of the provider loop, by the outcome of the post. *)
Lemma try_keys_cons (E : Env) (uf : bool) (ep : string) (pl : Payload)
    (n idx : nat) (key : string) (rest : list string) (le : option string)
    (w : World) :
  let w1 := mkWorld (clock w) (log w ++ [EvPost ep key pl]) in
  try_keys E uf ep pl n idx (key :: rest) le w =
  match provider E idx ep key pl with
  | Ok r =>
      if p_status_code r =? 200 then (Ok (Some r, le), w1)
      else if negb uf || Nat.eqb idx (n - 1) then (Ok (Some r, le), w1)
      else if negb (in_fallback_statuses (p_status_code r)) then (Ok (Some r, le), w1)
      else try_keys E uf ep pl n (S idx) rest le w1
  | Raise ex =>
      if negb uf || Nat.eqb idx (n - 1) then (Ok (None, Some ex), w1)
      else try_keys E uf ep pl n (S idx) rest (Some ex) w1
  end.
Proof.
  simpl. unfold key_attempt, try_except, bind, client_post, ret.
  destruct (provider E idx ep key pl) as [r|ex]; simpl.
  - destruct (p_status_code r =? 200); [reflexivity|].
    destruct (negb uf || Nat.eqb idx (n - 1)); [reflexivity|].
    destruct (negb (in_fallback_statuses (p_status_code r))); reflexivity.
  - destruct (negb uf || Nat.eqb idx (n - 1)); reflexivity.
Qed.

(** The loop never raises, takes no clock reading, and adds to the log
    only posts, for a prefix of the keys and in their order. *)
Lemma try_keys_shape (E : Env) (uf : bool) (ep : string) (pl : Payload) (n : nat)
    (keys : list string) :
  forall (idx : nat) (le : option string) (w : World),
  exists resp le' ks,
    try_keys E uf ep pl n idx keys le w =
      (Ok (resp, le'), mkWorld (clock w) (log w ++ posts ep pl ks))
    /\ ks `prefix_of` keys.
Proof.
  induction keys as [|key rest IH]; intros idx le w.
  - exists None, le, []. split; [|apply prefix_nil].
    simpl. unfold ret. f_equal. apply world_eta.
  - rewrite try_keys_cons.
    assert (Hstop : forall (resp : option ProviderResponse) (le' : option string),
      exists resp0 le0 ks,
        (@Ok (option ProviderResponse * option string) (resp, le'), mkWorld (clock w) (log w ++ [EvPost ep key pl])) =
        (Ok (resp0, le0), mkWorld (clock w) (log w ++ posts ep pl ks))
        /\ ks `prefix_of` key :: rest).
    { intros resp le'. exists resp, le', [key]. split; [reflexivity|].
      apply prefix_cons, prefix_nil. }
    assert (Hgo : forall le1,
      exists resp0 le0 ks,
        try_keys E uf ep pl n (S idx) rest le1
          (mkWorld (clock w) (log w ++ [EvPost ep key pl])) =
        (Ok (resp0, le0), mkWorld (clock w) (log w ++ posts ep pl ks))
        /\ ks `prefix_of` key :: rest).
    { intros le1.
      destruct (IH (S idx) le1 (mkWorld (clock w) (log w ++ [EvPost ep key pl])))
        as (resp & le' & ks & Hrun & Hpre).
      exists resp, le', (key :: ks). split; [|apply prefix_cons; exact Hpre].
      rewrite Hrun. unfold posts. simpl. rewrite <- app_assoc. reflexivity. }
    destruct (provider E idx ep key pl) as [r|ex].
    + destruct (p_status_code r =? 200); [apply Hstop|].
      destruct (negb uf || Nat.eqb idx (n - 1)); [apply Hstop|].
      destruct (negb (in_fallback_statuses (p_status_code r))); [apply Hstop|].
      apply Hgo.
    + destruct (negb uf || Nat.eqb idx (n - 1)); [apply Hstop | apply Hgo].
Qed.

Lemma try_keys_skip (E : Env) (ep : string) (pl : Payload) (n : nat)
    (key : string) (rest : list string) (pre : list string) :
  forall (idx : nat) (le : option string) (w : World),
  n = (idx + length pre + S (length rest))%nat ->
  (forall j k, pre !! j = Some k ->
     retryable (provider E (idx + j) ep k pl) = true) ->
  exists le',
    try_keys E true ep pl n idx (pre ++ key :: rest) le w =
    try_keys E true ep pl n (idx + length pre) (key :: rest) le'
      (mkWorld (clock w) (log w ++ posts ep pl pre)).
Proof.
  induction pre as [|k0 pre IH]; intros idx le w Hn Hpre.
  - exists le. simpl length. rewrite Nat.add_0_r. simpl app at 1.
    unfold posts. simpl map. rewrite <- world_eta. reflexivity.
  - simpl app at 1. rewrite try_keys_cons.
    pose proof (Hpre 0%nat k0 eq_refl) as H0. rewrite Nat.add_0_r in H0.
    assert (Hidx : Nat.eqb idx (n - 1) = false).
    { apply Nat.eqb_neq. simpl in Hn. lia. }
    simpl in Hn.
    assert (Hrest : forall j k, pre !! j = Some k ->
              retryable (provider E (S idx + j) ep k pl) = true).
    { intros j k Hj. specialize (Hpre (S j) k Hj).
      replace (S idx + j)%nat with (idx + S j)%nat by lia. exact Hpre. }
    assert (Hgo : forall le1, exists le',
      try_keys E true ep pl n (S idx) (pre ++ key :: rest) le1
        (mkWorld (clock w) (log w ++ [EvPost ep k0 pl])) =
      try_keys E true ep pl n (idx + length (k0 :: pre)) (key :: rest) le'
        (mkWorld (clock w) (log w ++ posts ep pl (k0 :: pre)))).
    { intros le1.
      destruct (IH (S idx) le1 (mkWorld (clock w) (log w ++ [EvPost ep k0 pl])))
        as [le' Hrun]; [lia | exact Hrest |].
      exists le'. rewrite Hrun. simpl length. unfold posts. simpl.
      rewrite <- app_assoc. simpl.
      replace (S (idx + length pre)) with (idx + S (length pre))%nat by lia.
      reflexivity. }
    destruct (provider E idx ep k0 pl) as [r|ex]; simpl in H0.
    + destruct (p_status_code r =? 200) eqn:H200.
      { apply Z.eqb_eq in H200. rewrite H200 in H0. discriminate. }
      rewrite Hidx, H0. simpl. apply Hgo.
    + rewrite Hidx. simpl. apply Hgo.
Qed.

(** C3.  In a chain of at least two keys with fallback enabled, take any
    key that is reached (every key before it gave a status of the fallback
    list or an exception).  If its own outcome is of that kind and a key
    follows, that key is posted next.  If it answers 200, the loop leaves
    with that response and nothing is posted after it.  If it answers any
    status outside the list, the loop leaves with that response (whose
    status the entry points then report) and nothing is posted after it. *)
Theorem fallback_policy (E : Env) (ep : string) (pl : Payload)
    (pre : list string) (key : string) (rest : list string)
    (le : option string) (w : World) :
  let keys := pre ++ key :: rest in
  let out := provider E (length pre) ep key pl in
  let run := try_keys E true ep pl (length keys) 0 keys le w in
  (2 <= length keys)%nat ->
  (forall j k, pre !! j = Some k -> retryable (provider E j ep k pl) = true) ->
  (retryable out = true ->
   forall k' rest', rest = k' :: rest' ->
   exists ks, log run.2 = log w ++ posts ep pl (pre ++ key :: k' :: ks)
              /\ ks `prefix_of` rest')
  /\ (forall r, out = Ok r -> p_status_code r = 200 ->
      exists le', run = (Ok (Some r, le'),
                         mkWorld (clock w) (log w ++ posts ep pl (pre ++ [key]))))
  /\ (forall r, out = Ok r -> p_status_code r <> 200 ->
      in_fallback_statuses (p_status_code r) = false ->
      exists le', run = (Ok (Some r, le'),
                         mkWorld (clock w) (log w ++ posts ep pl (pre ++ [key])))).
Proof.
  intros keys out run Hlen Hpre.
  destruct (try_keys_skip E ep pl (length keys) key rest pre 0%nat le w)
    as [le0 Hskip].
  { unfold keys. rewrite length_app. simpl. lia. }
  { exact Hpre. }
  change (0 + length pre)%nat with (length pre) in Hskip.
  rewrite try_keys_cons in Hskip. cbn [clock log] in Hskip.
  fold keys in Hskip. fold run in Hskip. fold out in Hskip.
  clearbody run. subst run.
  assert (Hk : length keys = (length pre + S (length rest))%nat).
  { unfold keys. rewrite length_app. reflexivity. }
  set (w1 := mkWorld (clock w) ((log w ++ posts ep pl pre) ++ [EvPost ep key pl])).
  assert (Hone : log w1 = log w ++ posts ep pl (pre ++ [key])).
  { unfold w1, posts. simpl. rewrite map_app, <- app_assoc. reflexivity. }
  assert (Hw1 : w1 = mkWorld (clock w) (log w ++ posts ep pl (pre ++ [key]))).
  { rewrite <- Hone. reflexivity. }
  split; [|split].
  - intros Hretry k' rest' Hrest.
    assert (Hidx : Nat.eqb (length pre) (length keys - 1) = false).
    { apply Nat.eqb_neq. rewrite Hk, Hrest. simpl. lia. }
    rewrite Hidx. simpl negb. simpl orb.
    assert (Hnext : forall le1, exists ks,
      log (try_keys E true ep pl (length keys) (S (length pre)) rest le1 w1).2
        = log w ++ posts ep pl (pre ++ key :: k' :: ks) /\ ks `prefix_of` rest').
    { intros le1. rewrite Hrest, try_keys_cons.
      set (w2 := mkWorld (clock w1) (log w1 ++ [EvPost ep k' pl])).
      assert (Hmany : forall l, log w2 ++ posts ep pl l
                     = log w ++ posts ep pl (pre ++ key :: k' :: l)).
      { intros l. unfold w2. cbn [log]. rewrite Hone. unfold posts.
        rewrite !map_app. simpl. rewrite <- !app_assoc. reflexivity. }
      assert (Hstop : forall (x : Res (option ProviderResponse * option string)),
        exists ks, log (x, w2).2 = log w ++ posts ep pl (pre ++ key :: k' :: ks)
                   /\ ks `prefix_of` rest').
      { intros x. exists []. split; [|apply prefix_nil].
        rewrite <- Hmany. unfold posts. simpl. rewrite app_nil_r. reflexivity. }
      assert (Hgo : forall le2, exists ks,
        log (try_keys E true ep pl (length keys) (S (S (length pre))) rest' le2 w2).2
          = log w ++ posts ep pl (pre ++ key :: k' :: ks) /\ ks `prefix_of` rest').
      { intros le2.
        destruct (try_keys_shape E true ep pl (length keys) rest'
                    (S (S (length pre))) le2 w2)
          as (resp & le3 & ks & Hrun & Hpfx).
        exists ks. rewrite Hrun. cbn [snd log]. split; [apply Hmany | exact Hpfx]. }
      destruct (provider E (S (length pre)) ep k' pl) as [r|ex].
      - destruct (p_status_code r =? 200); [apply Hstop|].
        destruct (negb true || Nat.eqb (S (length pre)) (length keys - 1));
          [apply Hstop|].
        destruct (negb (in_fallback_statuses (p_status_code r)));
          [apply Hstop | apply Hgo].
      - destruct (negb true || Nat.eqb (S (length pre)) (length keys - 1));
          [apply Hstop | apply Hgo]. }
    destruct out as [r|ex]; simpl in Hretry.
    + destruct (p_status_code r =? 200) eqn:H200.
      { apply Z.eqb_eq in H200. rewrite H200 in Hretry. discriminate. }
      rewrite Hretry. simpl negb. cbv iota. apply Hnext.
    + apply Hnext.
  - intros r Hr H200. rewrite Hr. apply Z.eqb_eq in H200. rewrite H200.
    exists le0. fold w1. rewrite Hw1. reflexivity.
  - intros r Hr Hne Hout. rewrite Hr.
    apply Z.eqb_neq in Hne. rewrite Hne, Hout. fold w1. rewrite Hw1.
    destruct (negb true || Nat.eqb (length pre) (length keys - 1));
      exists le0; reflexivity.
Qed.

(** With the primary key over quota (429) and a working fallback key, the
    loop leaves with the fallback's 200 response after posting with both
    keys, in order. *)
Lemma fallback_policy_witness :
  exists le',
    try_keys Scenario.env_fallback true SERPER_SEARCH_ENDPOINT Scenario.payload0
             2 0 ["K1"; "K2"] None Scenario.w0 =
    (Ok (Some (mkPResp 200 (Ok (mkJson (Some []) (Some Scenario.two_hits)))), le'),
     mkWorld 0 (posts SERPER_SEARCH_ENDPOINT Scenario.payload0 ["K1"; "K2"])).
Proof.
  destruct (fallback_policy Scenario.env_fallback SERPER_SEARCH_ENDPOINT
              Scenario.payload0 ["K1"] "K2" [] None Scenario.w0)
    as (_ & H200 & _).
  - simpl. lia.
  - intros [|j] k Hj; simpl in Hj; [|discriminate].
    injection Hj as <-. reflexivity.
  - apply H200; reflexivity.
Defined.

(** ** Credential chain *)

Lemma primary_keys_resolved (E : Env) (api_key : option string) :
  resolved_primary E api_key <> EmptyString ->
  primary_keys E api_key = [resolved_primary E api_key].
Proof.
  unfold resolved_primary, primary_keys, opt_truthy.
  destruct api_key as [k|]; simpl.
  - destruct (PyStr.truthy k) eqn:Hk; [reflexivity|].
    destruct (SERPER_API_KEY E); [congruence | reflexivity].
  - destruct (SERPER_API_KEY E); [congruence | reflexivity].
Qed.

Lemma try_keys_single (E : Env) (uf : bool) (ep : string) (pl : Payload)
    (key : string) (le : option string) (w : World) :
  exists resp le',
    try_keys E uf ep pl 1 0 [key] le w =
    (Ok (resp, le'), mkWorld (clock w) (log w ++ [EvPost ep key pl])).
Proof.
  rewrite try_keys_cons. simpl Nat.eqb. rewrite orb_true_r.
  destruct (provider E 0 ep key pl) as [r|ex]; [|eauto].
  destruct (p_status_code r =? 200); eauto.
Qed.

(** C4, as amended.  Let the resolved primary key be non-empty.  If
    fallback is disabled, or the resolved fallback key is empty or equal
    to the primary, the chain is the primary alone and the provider loop
    posts exactly once, with that key.  If fallback is enabled and the
    resolved fallback key is non-empty and differs from the primary, the
    chain is the primary followed by the fallback. *)
Theorem credential_chain (E : Env) (api_key fallback_api_key : option string)
    (use_fallback : bool) :
  let p := resolved_primary E api_key in
  let f := fb_key E fallback_api_key in
  let keys := keys_in_order E api_key fallback_api_key use_fallback in
  p <> EmptyString ->
  (use_fallback = false \/ f = EmptyString \/ f = p ->
   keys = [p] /\
   forall uf ep pl le w, exists resp le',
     try_keys E uf ep pl (length keys) 0 keys le w =
     (Ok (resp, le'), mkWorld (clock w) (log w ++ [EvPost ep p pl])))
  /\ (use_fallback = true -> f <> EmptyString -> f <> p -> keys = [p; f]).
Proof.
  intros p f keys Hp.
  assert (Hkeys : keys =
    if use_fallback && PyStr.truthy f then
      if negb (String.eqb f p) then [p; f] else [p]
    else [p]).
  { unfold keys, keys_in_order. rewrite primary_keys_resolved by exact Hp.
    fold p f. simpl str_in. rewrite orb_false_r. reflexivity. }
  split.
  - intros Hone.
    assert (Hsingle : keys = [p]).
    { rewrite Hkeys. destruct Hone as [-> | [-> | ->]]; simpl.
      - reflexivity.
      - rewrite andb_false_r. reflexivity.
      - rewrite String.eqb_refl. simpl. destruct (use_fallback && _); reflexivity. }
    split; [exact Hsingle|]. intros uf ep pl le w. rewrite Hsingle.
    apply try_keys_single.
  - intros -> Hf Hfp. rewrite Hkeys.
    assert (Ht : PyStr.truthy f = true) by (destruct f; [congruence | reflexivity]).
    rewrite Ht. apply String.eqb_neq in Hfp. rewrite Hfp. reflexivity.
Qed.

(** Identical primary and fallback keys give a chain of one key; distinct
    ones give the chain of both. *)
Lemma credential_chain_witness :
  keys_in_order Scenario.env_two (Some "K") (Some "K") true = ["K"]
  /\ keys_in_order Scenario.env_two None None true = ["K1"; "K2"].
Proof.
  split.
  - apply (credential_chain Scenario.env_two (Some "K") (Some "K") true);
      [discriminate | right; right; reflexivity].
  - apply (credential_chain Scenario.env_two None None true);
      [discriminate | reflexivity | discriminate | discriminate].
Defined.

(** C4 as stated fails in two ways.  With fallback disabled, a non-empty
    fallback key that differs from the primary is still left out of the
    chain.  With no primary key configured and an empty fallback key, the
    chain is empty rather than of one key. *)
Lemma credential_chain_counterexample :
  (fb_key Scenario.env_two (Some "b") = "b"
   /\ resolved_primary Scenario.env_two (Some "a") = "a"
   /\ keys_in_order Scenario.env_two (Some "a") (Some "b") false = ["a"]
   /\ keys_in_order Scenario.env_two (Some "a") (Some "b") false <> ["a"; "b"])
  /\ (fb_key Scenario.env_no_key None = EmptyString
      /\ keys_in_order Scenario.env_no_key None None true = []
      /\ length (keys_in_order Scenario.env_no_key None None true) <> 1%nat).
Proof. repeat split; try reflexivity; discriminate. Qed.

(** ** Result count *)

Lemma clamp_search_web_range (num_results : option Z) :
  1 <= clamp_search_web num_results <= 20.
Proof. unfold clamp_search_web. lia. Qed.

Lemma fetch_num_range (num_results : option Z) :
  1 <= fetch_num num_results <= 20.
Proof. unfold fetch_num. lia. Qed.

Lemma clamp_search_web_below (n : Z) : n < 1 -> clamp_search_web (Some n) = 1.
Proof. unfold clamp_search_web. lia. Qed.

Lemma clamp_search_web_above (n : Z) : 20 < n -> clamp_search_web (Some n) = 20.
Proof. unfold clamp_search_web. lia. Qed.

Lemma fetch_num_above (n : Z) : 20 < n -> fetch_num (Some n) = 20.
Proof.
  unfold fetch_num. intros H. destruct (n =? 0) eqn:H0; [|lia].
  apply Z.eqb_eq in H0. lia.
Qed.

Lemma fetch_num_negative (n : Z) : n < 0 -> fetch_num (Some n) = 1.
Proof.
  unfold fetch_num. intros H. destruct (n =? 0) eqn:H0; [|lia].
  apply Z.eqb_eq in H0. lia.
Qed.

(** C2 at the input 0.  [search_web] clamps 0 to 1 and 35 to 20.
    [search_web_structured] clamps 35 to 20 but turns 0 into the default 4:
    with num_results = 0 it posts a payload asking for 4 results and
    records 4. *)
Theorem structured_count_zero :
  clamp_search_web (Some 0) = 1
  /\ clamp_search_web (Some 35) = 20
  /\ fetch_num (Some 35) = 20
  /\ fetch_num (Some 0) = 4
  /\ log (search_web_structured_exit Scenario.env_two "q" "search" (Some 0) true
            None None true Scenario.w0).2
     = [EvPost SERPER_SEARCH_ENDPOINT "K1" (mkPayload "q" 4 false);
        EvRecord 10 (Some 4)]
  /\ log (search_web_exit Scenario.env_two "q" "search" (Some 0)
            None None true Scenario.w0).2
     = [EvPost SERPER_SEARCH_ENDPOINT "K1" (mkPayload "q" 1 false);
        EvRecord 10 (Some 1)].
Proof. repeat split; vm_compute; reflexivity. Qed.

(** ** Gate and extraction fallback *)

(** C5, as amended.  For a response whose content type does not contain
    "text/html" and whose body does not show "<html" in its first 1000
    characters, trafilatura is not consulted: [search_web] produces no
    chunk for the item, and [search_web_structured] sets cleaned_text to
    the naive tag-stripped, whitespace-collapsed text of the body (empty
    only when that text is empty).  For a body on which trafilatura
    raises, returns nothing or returns only whitespace, the extractor
    returns the naive text of the body. *)
Theorem extraction_gate_and_fallback (E : Env) :
  (forall search_type include_html idx meta r t,
     g_text r = Ok t ->
     looks_like_html (content_type_of r) (g_text r) = Ok false ->
     sw_item E search_type meta (FetchResp r) = Ok None
     /\ i_cleaned_text
          (build_item E search_type include_html idx meta (FetchResp r)).1.1
        = naive_text t)
  /\ (forall html url,
        PyStr.strip (res_default (extract_or_empty E html url) EmptyString)
          = EmptyString ->
        _robust_extract_main_text E (AStr html) url = Ok (naive_text html)).
Proof.
  split; [|apply robust_extract_fallback].
  intros search_type include_html idx meta r t Ht Hgate. split.
  - unfold sw_item, sw_body. rewrite Hgate. reflexivity.
  - unfold build_item. cbn [fst i_cleaned_text].
    unfold st_cleaned, st_extracted. rewrite Hgate. cbn.
    rewrite Ht. cbn.
    destruct (PyStr.truthy (naive_text t)) eqn:Hn.
    + apply naive_text_stripped.
    + symmetry. apply truthy_false. exact Hn.
Qed.

(** A text/plain page yields no chunk in [search_web] and its words as
    cleaned_text in [search_web_structured]; an HTML body on which the
    extractor finds nothing yields its tag-stripped text. *)
Lemma extraction_gate_and_fallback_witness :
  (sw_item Scenario.env_two "search" (Scenario.hit "T" "https://a.example/p")
           (FetchResp Scenario.plain_page) = Ok None
   /\ i_cleaned_text
        (build_item Scenario.env_two "search" true 0
           (Scenario.hit "T" "https://a.example/p")
           (FetchResp Scenario.plain_page)).1.1
      = naive_text "plain words")
  /\ _robust_extract_main_text Scenario.env_two
       (AStr "<html><body><p>Hello  world</p></body></html>") "https://a.example/p"
     = Ok (naive_text "<html><body><p>Hello  world</p></body></html>").
Proof.
  destruct (extraction_gate_and_fallback Scenario.env_two) as [Hgate Hfall].
  split.
  - apply Hgate; reflexivity.
  - apply Hfall. reflexivity.
Defined.

(** C5 as stated fails for [search_web_structured]: a text/plain response
    whose body does not look like HTML gets a non-empty cleaned_text. *)
Lemma extraction_gate_counterexample :
  looks_like_html (content_type_of Scenario.plain_page)
                  (g_text Scenario.plain_page) = Ok false
  /\ i_cleaned_text
       (build_item Scenario.env_two "search" true 0
          (Scenario.hit "T" "https://a.example/p")
          (FetchResp Scenario.plain_page)).1.1
     = "plain words"
  /\ i_cleaned_text
       (build_item Scenario.env_two "search" true 0
          (Scenario.hit "T" "https://a.example/p")
          (FetchResp Scenario.plain_page)).1.1
     <> EmptyString.
Proof. repeat split; try reflexivity. vm_compute. discriminate. Qed.

(** ** The entry points, path by path *)

(** Every run of [search_web_structured] returns; it takes two clock
    readings, posts with a prefix of the chain, and then, unless it leaves
    through the handler of the outer [try], records the elapsed time and
    the effective result count once. *)
Lemma structured_run (E : Env) (query search_type : string)
    (num_results : option Z) (include_html : bool)
    (api_key fallback_api_key : option string) (use_fallback : bool) (w : World) :
  let st := normalize_search_type search_type in
  let pl := mkPayload query (fetch_num num_results) (is_news st) in
  let d := time_reading E (S (clock w)) - time_reading E (clock w) in
  exists x ks,
    ks `prefix_of` keys_in_order E api_key fallback_api_key use_fallback
    /\ search_web_structured_exit E query search_type num_results include_html
         api_key fallback_api_key use_fallback w =
       (Ok x,
        mkWorld (S (S (clock w)))
          (log w ++ posts (endpoint_of st) pl ks ++
           match x with
           | SCaught _ => []
           | _ => [EvRecord d (Some (fetch_num num_results))]
           end)).
Proof.
  intros st pl d. unfold search_web_structured_exit. fold st. fold pl.
  run_monad.
  destruct (limiter_hit_result E) as [[|]|e];
    [|finish_run (@nil string)|finish_run (@nil string)].
  cbn [negb].
  destruct (try_keys_shape E use_fallback (endpoint_of st) pl
              (length (keys_in_order E api_key fallback_api_key use_fallback))
              (keys_in_order E api_key fallback_api_key use_fallback)
              0%nat None (mkWorld (S (clock w)) (log w)))
    as (resp & le & ks & Hrun & Hpfx).
  rewrite Hrun. cbn [clock log].
  destruct resp as [resp|]; [|finish_run ks].
  destruct (negb (p_status_code resp =? 200)); [finish_run ks|].
  destruct (p_json resp) as [body|e]; [|finish_run ks].
  destruct (hits_of st body) as [|h hs]; [finish_run ks|].
  destruct (st_loop _ _ _ _ _ _ _ _) as [[results_out blocks] n].
  finish_run ks.
Qed.


(** Every run of [search_web] returns.  Without a key it takes one clock
    reading and records (0, num_results as given).  Otherwise it takes two
    readings, posts with a prefix of the chain, and then, unless it leaves
    through the handler of the outer [try], records the elapsed time and
    the clamped result count once. *)
Lemma text_run (E : Env) (query search_type : string) (num_results : option Z)
    (api_key fallback_api_key : option string) (use_fallback : bool) (w : World) :
  let st := normalize_search_type search_type in
  let pl := mkPayload query (clamp_search_web num_results) (is_news st) in
  let d := time_reading E (S (clock w)) - time_reading E (clock w) in
  exists x ks,
    ks `prefix_of` keys_in_order E api_key fallback_api_key use_fallback
    /\ search_web_exit E query search_type num_results
         api_key fallback_api_key use_fallback w =
       (Ok x,
        mkWorld (match x with TNoKey => S (clock w) | _ => S (S (clock w)) end)
          (log w ++ posts (endpoint_of st) pl ks ++
           match x with
           | TNoKey => [EvRecord 0 num_results]
           | TCaught _ => []
           | _ => [EvRecord d (Some (clamp_search_web num_results))]
           end)).
Proof.
  intros st pl d. unfold search_web_exit. fold st. fold pl.
  destruct (keys_in_order E api_key fallback_api_key use_fallback)
    as [|k0 keys] eqn:Hkeys.
  { run_monad. finish_run (@nil string). }
  run_monad.
  destruct (limiter_hit_result E) as [[|]|e];
    [|finish_run (@nil string)|finish_run (@nil string)].
  cbn [negb].
  destruct (try_keys_shape E use_fallback (endpoint_of st) pl
              (length (k0 :: keys)) (k0 :: keys)
              0%nat None (mkWorld (S (clock w)) (log w)))
    as (resp & le & ks & Hrun & Hpfx).
  rewrite Hrun. cbn [clock log].
  destruct resp as [resp|]; [|finish_run ks].
  destruct (negb (p_status_code resp =? 200)); [finish_run ks|].
  destruct (p_json resp) as [body|e]; [|finish_run ks].
  destruct (hits_of st body) as [|h hs]; [finish_run ks|].
  destruct (links_of (h :: hs)) as [urls|e]; [|finish_run ks].
  destruct (sw_loop _ _ _ _ _) as [[chunks n]|e]; [|finish_run ks].
  destruct chunks; finish_run ks.
Qed.

Lemma fmap_run {A B} (f : A -> B) (c : M A) (w : World) (a : A) (w' : World) :
  c w = (Ok a, w') -> fmap f c w = (Ok (f a), w').
Proof. intros H. unfold fmap, bind, ret. rewrite H. reflexivity. Qed.

(** A non-200 response left by the provider loop is what both entry
    points report: its status is the error of the call. *)
Lemma text_reports_status (E : Env) (query search_type : string)
    (num_results : option Z) (api_key fallback_api_key : option string)
    (use_fallback : bool) (w w1 : World) (r : ProviderResponse)
    (le : option string) :
  let st := normalize_search_type search_type in
  let keys := keys_in_order E api_key fallback_api_key use_fallback in
  limiter_hit_result E = Ok true ->
  try_keys E use_fallback (endpoint_of st)
           (mkPayload query (clamp_search_web num_results) (is_news st))
           (length keys) 0 keys None (mkWorld (S (clock w)) (log w))
    = (Ok (Some r, le), w1) ->
  p_status_code r <> 200 ->
  exists w',
    search_web E query search_type num_results api_key fallback_api_key
               use_fallback w
    = (Ok ("Error: Search API returned status " +:+ PyStr.of_Z (p_status_code r) +:+
           ". Please check your API key and try again."), w').
Proof.
  intros st keys Hlim Hrun Hne. eexists.
  apply (fmap_run (render_text query st) _ w (TApiStatus (p_status_code r))).
  unfold search_web_exit. fold st. fold keys.
  destruct keys as [|k0 ks]; [discriminate|].
  run_monad. rewrite Hlim. cbn [negb]. rewrite Hrun.
  apply Z.eqb_neq in Hne. rewrite Hne. reflexivity.
Qed.

Lemma structured_reports_status (E : Env) (query search_type : string)
    (num_results : option Z) (include_html : bool)
    (api_key fallback_api_key : option string)
    (use_fallback : bool) (w w1 : World) (r : ProviderResponse)
    (le : option string) :
  let st := normalize_search_type search_type in
  let keys := keys_in_order E api_key fallback_api_key use_fallback in
  limiter_hit_result E = Ok true ->
  try_keys E use_fallback (endpoint_of st)
           (mkPayload query (fetch_num num_results) (is_news st))
           (length keys) 0 keys None (mkWorld (S (clock w)) (log w))
    = (Ok (Some r, le), w1) ->
  p_status_code r <> 200 ->
  exists w',
    search_web_structured_exit E query search_type num_results include_html
      api_key fallback_api_key use_fallback w
    = (Ok (SApiStatus (p_status_code r)), w').
Proof.
  intros st keys Hlim Hrun Hne. eexists.
  unfold search_web_structured_exit. fold st. fold keys.
  run_monad. rewrite Hlim. cbn [negb]. rewrite Hrun.
  apply Z.eqb_neq in Hne. rewrite Hne. reflexivity.
Qed.

(** ** Analytics *)

(** C1, as amended.  Every call of [search_web] or [search_web_structured]
    returns.  On every path other than the handler of the outer [try],
    [record_request] is the last outbound call before the return and the
    only recording of the call: with (0, num_results as given) on the
    no-key path of [search_web], and with the time elapsed since the start
    and the effective result count on all other paths (rate limit, request
    failure, non-200 status, no hits, no extractable content, success).
    The handler of [search_web_structured] returns without recording.
    Nothing is stated about the handler of [search_web]. *)
Theorem failure_paths_record (E : Env) (query search_type : string)
    (num_results : option Z) (include_html : bool)
    (api_key fallback_api_key : option string) (use_fallback : bool) (w : World) :
  let st := normalize_search_type search_type in
  let ep := endpoint_of st in
  let d := time_reading E (S (clock w)) - time_reading E (clock w) in
  (exists x ks w',
     search_web E query search_type num_results api_key fallback_api_key
                use_fallback w = (Ok (render_text query st x), w')
     /\ match x with
        | TCaught _ => True
        | TNoKey => log w' = log w ++ [EvRecord 0 num_results]
        | _ => log w' =
               log w
               ++ posts ep (mkPayload query (clamp_search_web num_results) (is_news st)) ks
               ++ [EvRecord d (Some (clamp_search_web num_results))]
        end)
  /\ (exists x ks w',
        search_web_structured E query search_type num_results include_html
          api_key fallback_api_key use_fallback w
          = (Ok (render_structured query st x), w')
        /\ match x with
           | SCaught _ =>
               log w' =
               log w ++ posts ep (mkPayload query (fetch_num num_results) (is_news st)) ks
           | _ => log w' =
                  log w
                  ++ posts ep (mkPayload query (fetch_num num_results) (is_news st)) ks
                  ++ [EvRecord d (Some (fetch_num num_results))]
           end).
Proof.
  intros st ep d. split.
  - destruct (text_run E query search_type num_results api_key fallback_api_key
                use_fallback w) as (x & ks & Hpfx & Hrun).
    exists x, ks. eexists. split; [apply fmap_run; exact Hrun|].
    cbn [log].
    destruct x; try reflexivity; try exact I.
    destruct ks as [|k ks']; [reflexivity|].
    exfalso. revert Hrun Hpfx. unfold search_web_exit.
    destruct (keys_in_order E api_key fallback_api_key use_fallback) as [|k0 keys].
    + intros _ [l Hl]. discriminate.
    + run_monad. intros Hrun _.
      destruct (limiter_hit_result E) as [[|]|e]; cbn [negb] in Hrun;
        try discriminate.
      destruct (try_keys _ _ _ _ _ _ _ _ _) as [[[[resp|] le]|e] w1];
        try discriminate.
      destruct (negb (p_status_code resp =? 200)); [discriminate|].
      destruct (p_json resp) as [body|e]; [|discriminate].
      destruct (hits_of _ body) as [|h hs]; [discriminate|].
      destruct (links_of (h :: hs)) as [urls|e]; [|discriminate].
      destruct (sw_loop _ _ _ _ _) as [[chunks n]|e]; [|discriminate].
      destruct chunks; discriminate.
  - destruct (structured_run E query search_type num_results include_html api_key
                fallback_api_key use_fallback w) as (x & ks & Hpfx & Hrun).
    exists x, ks. eexists. split; [apply fmap_run; exact Hrun|].
    cbn [log]. destruct x; rewrite ?app_nil_r; reflexivity.
Qed.

(** C1 as stated fails: when the provider answers 200 with a body that is
    not JSON, [search_web_structured] returns its "exception" report, a
    failure outcome, and the log of the call holds the post alone:
    [record_request] was not invoked. *)
Lemma failure_paths_record_counterexample :
  let run := search_web_structured Scenario.env_bad_json "q" "search" (Some 3)
               true None None true Scenario.w0 in
  (exists report,
     run.1 = Ok report
     /\ report !! "error" = Some (VStr "exception")
     /\ report !! "results" = Some (VItems []))
  /\ log run.2 = [EvPost SERPER_SEARCH_ENDPOINT "K1" (mkPayload "q" 3 false)]
  /\ forall duration n, EvRecord duration n ∉ log run.2.
Proof.
  cbv zeta. split; [|split].
  - eexists. split; [vm_compute; reflexivity|]. split; vm_compute; reflexivity.
  - vm_compute. reflexivity.
  - intros duration n Hin.
    assert (Hlog : log (search_web_structured Scenario.env_bad_json "q" "search"
                          (Some 3) true None None true Scenario.w0).2
                   = [EvPost SERPER_SEARCH_ENDPOINT "K1" (mkPayload "q" 3 false)])
      by (vm_compute; reflexivity).
    rewrite Hlog in Hin. apply list_elem_of_singleton in Hin. discriminate.
Qed.

(** ** Shape of the structured report *)

Lemma render_structured_keys (query st : string) (x : StructExit) :
  let report := render_structured query st x in
  report !! "query" = Some (VStr query)
  /\ report !! "search_type" = Some (VStr st)
  /\ (exists items, report !! "results" = Some (VItems items))
  /\ (exists summary, report !! "summary" = Some (VStr summary))
  /\ match x with
     | SSuccess results_out _ _ =>
         report !! "results" = Some (VItems results_out)
         /\ report !! "error" = None
     | _ =>
         report !! "results" = Some (VItems [])
         /\ exists code, report !! "error" = Some (VStr code)
     end.
Proof.
  destruct x; cbv zeta; unfold render_structured;
    repeat split; eauto; simplify_map_eq; eauto.
Qed.

(** C10.  Every call of [search_web_structured] returns a dict with the
    keys "query", "search_type", "results" and "summary", whichever
    [return] statement is reached; on every path other than the success
    path, "results" is the empty list and the key "error" is present. *)
Theorem structured_report_shape (E : Env) (query search_type : string)
    (num_results : option Z) (include_html : bool)
    (api_key fallback_api_key : option string) (use_fallback : bool) (w : World) :
  exists x report w',
    search_web_structured_exit E query search_type num_results include_html
      api_key fallback_api_key use_fallback w = (Ok x, w')
    /\ search_web_structured E query search_type num_results include_html
         api_key fallback_api_key use_fallback w = (Ok report, w')
    /\ report !! "query" = Some (VStr query)
    /\ report !! "search_type" = Some (VStr (normalize_search_type search_type))
    /\ (exists items, report !! "results" = Some (VItems items))
    /\ (exists summary, report !! "summary" = Some (VStr summary))
    /\ match x with
       | SSuccess _ _ _ => True
       | _ => report !! "results" = Some (VItems [])
              /\ exists code, report !! "error" = Some (VStr code)
       end.
Proof.
  destruct (structured_run E query search_type num_results include_html api_key
              fallback_api_key use_fallback w) as (x & ks & _ & Hrun).
  cbv zeta in Hrun.
  exists x, (render_structured query (normalize_search_type search_type) x).
  eexists. split; [exact Hrun|]. split; [apply fmap_run; exact Hrun|].
  destruct (render_structured_keys query (normalize_search_type search_type) x)
    as (Hq & Hs & Hr & Hsum & Hx).
  repeat (split; [assumption|]).
  destruct x; try exact Hx; exact I.
Qed.

(** ** Order and length of the structured items *)

Lemma st_loop_items (E : Env) (st : string) (ih : bool)
    (pairs : list (Hit * FetchOutcome)) :
  forall (idx : nat) (acc : list Item) (blocks : list string) (n : nat),
  (st_loop E st ih idx pairs acc blocks n).1.1 =
  acc ++ imap (fun j p => (build_item E st ih (idx + j) p.1 p.2).1.1) pairs.
Proof.
  induction pairs as [|[meta response] rest IH]; intros idx acc blocks n.
  - simpl. rewrite app_nil_r. reflexivity.
  - cbn [st_loop].
    destruct (build_item E st ih idx meta response) as [[item block] ok] eqn:Hb.
    rewrite IH, imap_cons, <- app_assoc. cbn [app fst snd].
    replace (idx + 0)%nat with idx by lia. rewrite Hb. cbn [fst]. do 2 f_equal.
    apply imap_ext. intros j p _. unfold compose.
    replace (idx + S j)%nat with (S idx + j)%nat by lia. reflexivity.
Qed.

Lemma st_loop_length (E : Env) (st : string) (ih : bool)
    (pairs : list (Hit * FetchOutcome)) (idx : nat) :
  length (st_loop E st ih idx pairs [] [] 0).1.1 = length pairs.
Proof. rewrite st_loop_items. cbn [app]. apply length_imap. Qed.

(** C6 at a provider list whose first hit has no link.  The provider
    sends two hits; [search_web_structured] returns one item.  The item
    carries the title of the first hit and the status and text of the
    page fetched for the second hit; the second hit has no item. *)
Theorem structured_items_missing_link :
  length Scenario.hits_missing_link = 2%nat
  /\ exists item blocks n w',
       search_web_structured_exit Scenario.env_missing_link "q" "search" (Some 2)
         false None None true Scenario.w0
       = (Ok (SSuccess [item] blocks n), w')
       /\ i_title item = "First"
       /\ i_url item = EmptyString
       /\ i_error item = None
       /\ i_status_code item = Some 200
       /\ i_cleaned_text item = "page of the second hit".
Proof.
  split; [reflexivity|].
  do 4 eexists. split; [vm_compute; reflexivity|].
  repeat split.
Qed.

(** ** Per-item failures *)

Lemma links_of_wf (results : list Hit) :
  Forall hit_wf results -> links_of results = Ok (links results).
Proof.
  induction 1 as [|h hs [_ (u & Hu & _)] _ IH]; [reflexivity|].
  cbn [links_of links map]. rewrite Hu. cbn. fold (links hs). rewrite IH.
  reflexivity.
Qed.

Lemma split_host_truthy (u : string) :
  is_Some (PyStr.split "/" u !! 2%nat) -> PyStr.truthy u = true.
Proof. destruct u; [intros [x Hx]; discriminate | reflexivity]. Qed.

Lemma truthy_links_wf (results : list Hit) :
  Forall hit_wf results -> truthy_links results = links results.
Proof.
  induction 1 as [|h hs [_ (u & Hu & Hhost)] _ IH]; [reflexivity|].
  unfold truthy_links, links in *. cbn. rewrite Hu.
  rewrite (split_host_truthy u Hhost). cbn. f_equal. exact IH.
Qed.

Lemma sw_chunk_wf (E : Env) (st : string) (meta : Hit) (body : string) :
  hit_wf meta -> exists chunk, sw_chunk E st meta body = Ok chunk.
Proof.
  intros [[title Ht] (u & Hu & [host Hhost])].
  unfold sw_chunk. rewrite Ht, Hu. cbn [getitem res_bind].
  unfold domain_of. rewrite Hhost. cbn [res_bind].
  destruct (is_news st); eauto.
Qed.

Lemma sw_item_wf (E : Env) (st : string) (meta : Hit) (response : FetchOutcome) :
  hit_wf meta ->
  (usable E (meta, response) = false /\ sw_item E st meta response = Ok None)
  \/ (usable E (meta, response) = true
      /\ exists chunk, sw_item E st meta response = Ok (Some chunk)).
Proof.
  intros Hwf. unfold usable, sw_item. cbn [fst snd].
  destruct response as [msg|r]; [left; auto|].
  destruct (opt_truthy (sw_body E meta r)) eqn:Hb; cbn [negb].
  - right. split; [reflexivity|].
    destruct (sw_chunk_wf E st meta (default EmptyString (sw_body E meta r)) Hwf)
      as [chunk Hc].
    exists chunk. rewrite Hc. reflexivity.
  - left. auto.
Qed.

(** On well-formed hits the loop of [search_web] runs to the end of the
    batch and adds one chunk per usable outcome. *)
Lemma sw_loop_wf (E : Env) (st : string) (pairs : list (Hit * FetchOutcome)) :
  forall (chunks : list string) (n : nat),
  Forall (fun p => hit_wf p.1) pairs ->
  exists cs,
    sw_loop E st pairs chunks n = Ok (chunks ++ cs, (n + length cs)%nat)
    /\ length cs = length (List.filter (usable E) pairs).
Proof.
  induction pairs as [|[meta response] rest IH]; intros chunks n Hwf.
  - exists []. cbn. rewrite app_nil_r, Nat.add_0_r. auto.
  - apply Forall_cons in Hwf as [Hm Hrest]. cbn [fst] in Hm.
    cbn [sw_loop List.filter].
    destruct (sw_item_wf E st meta response Hm) as [[Hu Hi] | [Hu [chunk Hi]]];
      rewrite Hi, Hu; cbn [res_bind].
    + apply IH. exact Hrest.
    + destruct (IH (chunks ++ [chunk]) (S n) Hrest) as (cs & Hrun & Hlen).
      exists (chunk :: cs). rewrite Hrun, <- app_assoc. cbn [app length].
      split; [do 2 f_equal; lia | f_equal; exact Hlen].
Qed.

Lemma Forall_zip_fst {A B} (P : A -> Prop) (l : list A) (k : list B) :
  Forall P l -> Forall (fun p => P p.1) (zip l k).
Proof.
  intros H. revert k. induction H as [|x l Hx _ IH]; intros k; [constructor|].
  destruct k as [|y k]; [constructor|]. cbn. constructor; [exact Hx | apply IH].
Qed.

Lemma length_gather (E : Env) (urls : list string) :
  length (gather E urls) = length urls.
Proof. unfold gather. apply length_imap. Qed.

(** When every hit has a link, the items of [search_web_structured] are
    one per hit, in the order of the hits: the item at position i carries
    the title and url of hit i, and an error note exactly when the fetch
    for hit i failed. *)
Lemma structured_items_aligned (E : Env) (st : string) (ih : bool)
    (results : list Hit) :
  Forall hit_wf results ->
  let items := (st_loop E st ih 0 (zip results (gather E (truthy_links results)))
                        [] [] 0).1.1 in
  length items = length results
  /\ forall i h, results !! i = Some h ->
       exists item,
         items !! i = Some item
         /\ i_title item = default EmptyString (h_title h)
         /\ i_url item = default EmptyString (h_link h)
         /\ match page E i (default EmptyString (h_link h)) with
            | FetchExc msg => i_error item = Some msg /\ i_cleaned_text item = EmptyString
            | FetchResp r => i_error item = None /\ i_status_code item = Some (g_status_code r)
            end.
Proof.
  intros Hwf items. subst items. rewrite truthy_links_wf by exact Hwf.
  split.
  - rewrite st_loop_length, length_zip, length_gather. unfold links.
    rewrite length_map. lia.
  - intros i h Hi. rewrite st_loop_items. cbn [app].
    rewrite list_lookup_imap. unfold gather, links.
    rewrite lookup_zip_with, Hi. cbn.
    rewrite list_lookup_imap, list_lookup_fmap, Hi. cbn.
    eexists. split; [reflexivity|].
    unfold build_item.
    destruct (page E i (default EmptyString (h_link h))); cbn; auto.
Qed.

(** X21.  Per-item failures with well-formed hits.  Take a call that reaches
    the fetch stage: the rate limiter lets it through and the provider
    loop leaves with a 200 response whose hits, a non-empty list, each
    have a title and an absolute link.  Whatever the fetches and
    extractions of the batch do, neither entry point leaves through its
    exception handler.  [search_web] runs its loop over the whole batch,
    keeps one chunk per item with usable content, and reports a failure
    exactly when no item has usable content.  [search_web_structured]
    returns its success report with one item per hit. *)
Theorem item_failures_stay_local (E : Env) (query search_type : string)
    (num_results : option Z) (include_html : bool)
    (api_key fallback_api_key : option string) (use_fallback : bool)
    (w : World) (resp : ProviderResponse) (body : JsonBody) :
  let st := normalize_search_type search_type in
  let keys := keys_in_order E api_key fallback_api_key use_fallback in
  let results := hits_of st body in
  let batch := zip results (gather E (links results)) in
  let good := List.filter (usable E) batch in
  limiter_hit_result E = Ok true ->
  (forall pl, exists le w1,
     try_keys E use_fallback (endpoint_of st) pl (length keys) 0 keys None
              (mkWorld (S (clock w)) (log w)) = (Ok (Some resp, le), w1)) ->
  p_status_code resp = 200 ->
  p_json resp = Ok body ->
  results <> [] ->
  Forall hit_wf results ->
  (exists chunks w',
     length chunks = length good
     /\ search_web_exit E query search_type num_results api_key fallback_api_key
          use_fallback w =
        (Ok (match chunks with
             | [] => TNoContent (length results)
             | _ :: _ => TSuccess chunks (length good) (length results)
             end), w'))
  /\ (exists items blocks n w',
        search_web_structured_exit E query search_type num_results include_html
          api_key fallback_api_key use_fallback w =
        (Ok (SSuccess items blocks n), w')
        /\ length items = length results).
Proof.
  intros st keys results batch good Hlim Hkeys H200 Hjson Hne Hwf.
  split.
  - unfold search_web_exit. fold st. fold keys.
    destruct keys as [|k0 ks] eqn:Hk.
    { destruct (Hkeys (mkPayload query 0 false)) as (le & w1 & Hrun).
      discriminate. }
    run_monad. rewrite Hlim. cbn [negb].
    destruct (Hkeys (mkPayload query (clamp_search_web num_results) (is_news st)))
      as (le & w1 & Hrun).
    rewrite Hrun. rewrite H200. cbn [Z.eqb Pos.eqb negb]. rewrite Hjson.
    fold results. destruct results as [|h hs] eqn:Hres; [congruence|].
    rewrite (links_of_wf (h :: hs) Hwf).
    destruct (sw_loop_wf E st batch [] 0%nat) as (cs & Hloop & Hlen).
    { apply Forall_zip_fst. exact Hwf. }
    fold batch. rewrite Hloop. cbn [app Nat.add].
    exists cs. destruct cs as [|c cs']; eexists; (split; [exact Hlen|]).
    + reflexivity.
    + subst good. rewrite <- Hlen. reflexivity.
  - unfold search_web_structured_exit. fold st. fold keys.
    run_monad. rewrite Hlim. cbn [negb].
    destruct (Hkeys (mkPayload query (fetch_num num_results) (is_news st)))
      as (le & w1 & Hrun).
    rewrite Hrun. rewrite H200. cbn [Z.eqb Pos.eqb negb]. rewrite Hjson.
    fold results. destruct results as [|h hs] eqn:Hres; [congruence|].
    destruct (structured_items_aligned E st include_html (h :: hs) Hwf)
      as [Hlen _].
    destruct (st_loop _ _ _ _ _ _ _ _) as [[items blocks] n].
    do 4 eexists. split; [reflexivity | exact Hlen].
Qed.

(** Two hits, the fetch of the first one times out, the page of the
    second one is served: [search_web] succeeds with the one chunk, and
    [search_web_structured] returns two items. *)
Lemma item_failures_stay_local_witness :
  (exists chunks w',
     length chunks
     = length (List.filter (usable Scenario.env_two)
                 (zip Scenario.two_hits
                      (gather Scenario.env_two (links Scenario.two_hits))))
     /\ search_web_exit Scenario.env_two "q" "search" (Some 2) None None true
          Scenario.w0 =
        (Ok (match chunks with
             | [] => TNoContent (length Scenario.two_hits)
             | _ :: _ =>
                 TSuccess chunks
                   (length (List.filter (usable Scenario.env_two)
                      (zip Scenario.two_hits
                           (gather Scenario.env_two (links Scenario.two_hits)))))
                   (length Scenario.two_hits)
             end), w'))
  /\ (exists items blocks n w',
        search_web_structured_exit Scenario.env_two "q" "search" (Some 2) true
          None None true Scenario.w0 =
        (Ok (SSuccess items blocks n), w')
        /\ length items = length Scenario.two_hits).
Proof.
  apply (item_failures_stay_local Scenario.env_two "q" "search" (Some 2) true
           None None true Scenario.w0
           (mkPResp 200 (Ok (mkJson (Some []) (Some Scenario.two_hits))))
           (mkJson (Some []) (Some Scenario.two_hits))).
  - reflexivity.
  - intros pl. do 2 eexists. reflexivity.
  - reflexivity.
  - reflexivity.
  - discriminate.
  - repeat (apply Forall_cons; split;
              [split; [eexists; reflexivity
                      | eexists; split; [reflexivity | eexists; reflexivity]]|]).
    apply Forall_nil. exact I.
Defined.

(** C7 at a provider list whose first hit has no title.  Both pages are
    fetched and both yield usable content, yet [search_web] does not
    finish its loop: formatting the first item raises KeyError 'title',
    and the call returns its catch-all error, with nothing recorded.
    [search_web_structured], which reads the title with a default,
    returns its success report with both items extracted. *)
Theorem item_failure_escalates_missing_title :
  length (List.filter (usable env_missing_title)
            (zip hits_missing_title
                 (gather env_missing_title (links hits_missing_title)))) = 2%nat
  /\ search_web env_missing_title "q" "search" (Some 2) None None true Scenario.w0
     = (Ok "Error occurred while searching: 'title'. Please try again or check your query.",
        mkWorld 2 [EvPost SERPER_SEARCH_ENDPOINT "K1" (mkPayload "q" 2 false)])
  /\ exists items blocks w',
       search_web_structured_exit env_missing_title "q" "search" (Some 2) false
         None None true Scenario.w0
       = (Ok (SSuccess items blocks 2), w')
       /\ length items = 2%nat.
Proof.
  split; [vm_compute; reflexivity|]. split; [vm_compute; reflexivity|].
  do 3 eexists. split; [vm_compute; reflexivity | reflexivity].
Qed.

(** ** Dates of news items *)

Lemma four_digits_year (y : Z) :
  1000 <= y <= 9999 -> four_digits (PyStr.of_Z y) = true.
Proof.
  intros Hy.
  assert (H : List.forallb
                (fun k => four_digits (PyStr.of_Z (1000 + Z.of_nat k)))
                (List.seq 0 (Z.to_nat 9000)) = true) by (vm_compute; reflexivity).
  rewrite List.forallb_forall in H. specialize (H (Z.to_nat (y - 1000))).
  replace (1000 + Z.of_nat (Z.to_nat (y - 1000))) with y in H by lia.
  apply H. apply List.in_seq. lia.
Qed.

Lemma two_digits_small (n : Z) :
  1 <= n <= 31 -> two_digits (zfill 2 (PyStr.of_Z n)) = true.
Proof.
  intros Hn.
  assert (H : List.forallb
                (fun k => two_digits (zfill 2 (PyStr.of_Z (Z.of_nat k))))
                (List.seq 1 31) = true) by (vm_compute; reflexivity).
  rewrite List.forallb_forall in H. specialize (H (Z.to_nat n)).
  rewrite Z2Nat.id in H by lia. apply H. apply List.in_seq. lia.
Qed.

(** A calendar date with a four-digit year prints as YYYY-MM-DD. *)
Lemma strftime_ymd_shape (y m d : Z) :
  1000 <= y <= 9999 -> 1 <= m <= 12 -> 1 <= d <= 31 ->
  iso_shape (strftime_ymd (y, m, d)) = true.
Proof.
  intros Hy Hm Hd. unfold strftime_ymd.
  pose proof (four_digits_year y Hy) as HY.
  pose proof (two_digits_small m ltac:(lia)) as HM.
  pose proof (two_digits_small d Hd) as HD.
  destruct (PyStr.of_Z y) as [|y1 [|y2 [|y3 [|y4 [|]]]]];
    try discriminate;
    try (cbn in HY; rewrite ?andb_false_r in HY; discriminate).
  destruct (zfill 2 (PyStr.of_Z m)) as [|m1 [|m2 [|]]]; try discriminate.
  destruct (zfill 2 (PyStr.of_Z d)) as [|d1 [|d2 [|]]]; try discriminate.
  cbv beta iota fix delta [String.append iso_shape].
  rewrite HY, HM, HD. reflexivity.
Qed.

(** C9, as amended.  In [search_web], the date shown for a news item is
    the provider's raw date parsed leniently and printed as year-month-day
    when the raw date is present, non-empty and parsable (of the shape
    YYYY-MM-DD for a calendar date with a four-digit year; a year below
    1000 is printed with the digits it has), and "Unknown" when it is
    absent, empty or unparsable.  In [search_web_structured], the date of a news
    item is the provider's raw date string as it came, and the empty
    string when it is absent. *)
Theorem news_dates (E : Env) (meta : Hit) :
  (forall body title link,
     h_title meta = Some title -> h_link meta = Some link ->
     sw_chunk E "news" meta body =
     Ok ("## " +:+ title +:+ nl +:+
         "**Source:** " +:+ default "Unknown" (h_source meta) +:+ "   " +:+
         "**Date:** " +:+ date_iso_of E meta +:+ nl +:+
         "**URL:** " +:+ link +:+ nl +:+ nl +:+ PyStr.strip body +:+ nl))
  /\ (forall s y m d,
        h_date meta = Some s -> s <> EmptyString ->
        dateparser_parse E s = Ok (y, m, d) ->
        date_iso_of E meta = strftime_ymd (y, m, d)
        /\ (1000 <= y <= 9999 -> 1 <= m <= 12 -> 1 <= d <= 31 ->
            iso_shape (date_iso_of E meta) = true))
  /\ (forall s e,
        h_date meta = Some s -> dateparser_parse E s = Raise e ->
        date_iso_of E meta = "Unknown")
  /\ (h_date meta = None \/ h_date meta = Some EmptyString ->
      date_iso_of E meta = "Unknown")
  /\ (forall include_html idx response,
        i_date (build_item E "news" include_html idx meta response).1.1
        = default EmptyString (h_date meta)).
Proof.
  split; [|split; [|split; [|split]]].
  - intros body title link Ht Hl. unfold sw_chunk. rewrite Ht, Hl. reflexivity.
  - intros s y m d Hs Hne Hp.
    assert (Hiso : date_iso_of E meta = strftime_ymd (y, m, d)).
    { unfold date_iso_of. rewrite Hs. cbn [default from_option id]. cbv zeta.
      assert (PyStr.truthy s = true) as ->
        by (destruct s; [congruence | reflexivity]).
      rewrite Hp. reflexivity. }
    split; [exact Hiso|]. intros Hy Hm Hd. rewrite Hiso.
    apply strftime_ymd_shape; assumption.
  - intros s e Hs Hp. unfold date_iso_of. rewrite Hs.
    cbn [default from_option id]. cbv zeta.
    destruct (PyStr.truthy s); [|reflexivity]. rewrite Hp. reflexivity.
  - intros [H | H]; unfold date_iso_of; rewrite H; reflexivity.
  - intros include_html idx response. unfold build_item.
    destruct response; reflexivity.
Qed.

(** A news hit dated "May 1, 2024" shows 2024-05-01 in [search_web] and
    keeps its raw date in [search_web_structured]. *)
Lemma news_dates_witness :
  date_iso_of Scenario.env_two
    (mkHit (Some "A") (Some "https://n.example/a") (Some "May 1, 2024") (Some "Wire"))
  = "2024-05-01"
  /\ i_date (build_item Scenario.env_two "news" false 0
               (mkHit (Some "A") (Some "https://n.example/a") (Some "May 1, 2024")
                      (Some "Wire"))
               (FetchExc "timeout")).1.1
     = "May 1, 2024".
Proof.
  destruct (news_dates Scenario.env_two
              (mkHit (Some "A") (Some "https://n.example/a") (Some "May 1, 2024")
                     (Some "Wire")))
    as (_ & Hparse & _ & _ & Hraw).
  split.
  - destruct (Hparse "May 1, 2024" 2024 5 1) as [Hiso _];
      [reflexivity | discriminate | reflexivity |].
    rewrite Hiso. reflexivity.
  - rewrite Hraw. reflexivity.
Defined.

(** C9 as stated fails.  In [search_web_structured] the news item of a
    hit dated "May 1, 2024" records that raw string, which is not of the
    shape YYYY-MM-DD, where [search_web] shows 2024-05-01; and the item of
    a hit without a date records the empty string, not "Unknown".  In
    [search_web] a date parsed as 1 May of the year 99 is shown as
    99-05-01, which is not of the shape YYYY-MM-DD either. *)
Lemma news_dates_counterexample :
  let dated := mkHit (Some "A") (Some "https://n.example/a") (Some "May 1, 2024")
                     (Some "Wire") in
  let undated := mkHit (Some "C") (Some "https://n.example/c") None None in
  let page := Scenario.html_page "<html><p>text</p></html>" in
  (i_date (build_item Scenario.env_two "news" false 0 dated page).1.1 = "May 1, 2024"
   /\ iso_shape "May 1, 2024" = false
   /\ date_iso_of Scenario.env_two dated = "2024-05-01")
  /\ (i_date (build_item Scenario.env_two "news" false 1 undated page).1.1 = EmptyString
      /\ i_date (build_item Scenario.env_two "news" false 1 undated page).1.1
         <> "Unknown")
  /\ (dateparser_parse env_old_date "0099-05-01" = Ok (99, 5, 1)
      /\ date_iso_of env_old_date old_news_hit = "99-05-01"
      /\ iso_shape (date_iso_of env_old_date old_news_hit) = false).
Proof.
  cbv zeta. repeat split; try reflexivity. vm_compute. discriminate.
Qed.

(** * Further properties *)

(** ** Credential chain *)

Lemma primary_keys_cases (E : Env) (api_key : option string) :
  primary_keys E api_key = []
  \/ exists p, primary_keys E api_key = [p] /\ PyStr.truthy p = true
               /\ (api_key = Some p \/ p = SERPER_API_KEY E).
Proof.
  unfold primary_keys. destruct api_key as [k|].
  - destruct (PyStr.truthy k) eqn:Hk; [right; eauto|].
    destruct (PyStr.truthy (SERPER_API_KEY E)) eqn:He; [right; eauto | left; auto].
  - destruct (PyStr.truthy (SERPER_API_KEY E)) eqn:He; [right; eauto | left; auto].
Qed.

Lemma fb_key_origin (E : Env) (fallback_api_key : option string) :
  fallback_api_key = Some (fb_key E fallback_api_key)
  \/ fb_key E fallback_api_key = SERPER_API_KEY_FALLBACK E.
Proof.
  unfold fb_key. destruct fallback_api_key as [k|]; [|auto].
  destruct (PyStr.truthy k); auto.
Qed.

Lemma truthy_nonempty (s : string) : PyStr.truthy s = true -> s <> EmptyString.
Proof. destruct s; [discriminate | discriminate]. Qed.

Lemma keys_in_order_facts (E : Env)
    (api_key fallback_api_key : option string) (use_fallback : bool) :
  let keys := keys_in_order E api_key fallback_api_key use_fallback in
  (length keys <= 2)%nat
  /\ NoDup keys
  /\ Forall (fun k => k <> EmptyString) keys
  /\ Forall (fun k => api_key = Some k \/ k = SERPER_API_KEY E
                      \/ fallback_api_key = Some k
                      \/ k = SERPER_API_KEY_FALLBACK E) keys.
Proof.
  cbv zeta. unfold keys_in_order.
  pose proof (fb_key_origin E fallback_api_key) as Hfb.
  set (fb := fb_key E fallback_api_key) in *.
  assert (Hfbsrc : fallback_api_key = Some fb \/ fb = SERPER_API_KEY_FALLBACK E -> 
            api_key = Some fb \/ fb = SERPER_API_KEY E
            \/ fallback_api_key = Some fb \/ fb = SERPER_API_KEY_FALLBACK E)
    by (intros [H|H]; auto).
  destruct (primary_keys_cases E api_key) as [-> | (p & -> & Hp & Hsrc)].
  - destruct (use_fallback && PyStr.truthy fb) eqn:Hc.
    + apply andb_true_iff in Hc as [_ Ht]. cbn [str_in existsb negb app].
      split; [cbn; lia|]. split; [apply NoDup_singleton|].
      split; apply Forall_singleton; [apply truthy_nonempty, Ht | auto].
    + split; [cbn; lia|]. split; [apply NoDup_nil; exact I|].
      split; apply Forall_nil; exact I.
  - assert (Hpsrc : api_key = Some p \/ p = SERPER_API_KEY E
                    \/ fallback_api_key = Some p
                    \/ p = SERPER_API_KEY_FALLBACK E)
      by (destruct Hsrc; auto).
    assert (Hone : (length [p] <= 2)%nat /\ NoDup [p]
                   /\ Forall (fun k => k <> EmptyString) [p]
                   /\ Forall (fun k => api_key = Some k \/ k = SERPER_API_KEY E
                        \/ fallback_api_key = Some k
                        \/ k = SERPER_API_KEY_FALLBACK E) [p]).
    { split; [cbn; lia|]. split; [apply NoDup_singleton|].
      split; apply Forall_singleton; [apply truthy_nonempty, Hp | exact Hpsrc]. }
    destruct (use_fallback && PyStr.truthy fb) eqn:Hc; [|exact Hone].
    apply andb_true_iff in Hc as [_ Ht].
    unfold str_in. cbn [existsb]. rewrite orb_false_r.
    destruct (String.eqb fb p) eqn:Heq; [exact Hone|].
    apply String.eqb_neq in Heq. cbn [negb app].
    split; [cbn; lia|]. split.
    + apply NoDup_cons. split; [|apply NoDup_singleton].
      intros Hin. apply list_elem_of_singleton in Hin. congruence.
    + split; (apply Forall_cons; split; [|apply Forall_singleton]).
      * apply truthy_nonempty, Hp.
      * apply truthy_nonempty, Ht.
      * exact Hpsrc.
      * auto.
Qed.

(** X1.  Whatever the arguments and the configuration, the credential
    chain has at most two keys, holds no empty key and no key twice, and
    every key in it is one of the two arguments or one of the two
    configured keys. *)
Theorem keys_in_order_invariants (E : Env)
    (api_key fallback_api_key : option string) (use_fallback : bool) :
  let keys := keys_in_order E api_key fallback_api_key use_fallback in
  (length keys <= 2)%nat
  /\ NoDup keys
  /\ Forall (fun k => k <> EmptyString) keys
  /\ Forall (fun k => api_key = Some k \/ k = SERPER_API_KEY E
                      \/ fallback_api_key = Some k
                      \/ k = SERPER_API_KEY_FALLBACK E) keys.
Proof. apply keys_in_order_facts. Qed.

(** ** Provider loop *)

Lemma try_keys_last_gen (E : Env) (uf : bool) (ep : string) (pl : Payload)
    (n : nat) (keys : list string) :
  forall (idx : nat) (le : option string) (w : World) resp le' w',
  keys <> [] ->
  n = (idx + length keys)%nat ->
  try_keys E uf ep pl n idx keys le w = (Ok (resp, le'), w') ->
  exists ks k,
    ks ++ [k] `prefix_of` keys
    /\ w' = mkWorld (clock w) (log w ++ posts ep pl (ks ++ [k]))
    /\ (forall j kj, ks !! j = Some kj ->
          retryable (provider E (idx + j) ep kj pl) = true)
    /\ match resp with
       | Some r => provider E (idx + length ks) ep k pl = Ok r
       | None => exists ex, provider E (idx + length ks) ep k pl = Raise ex
                            /\ le' = Some ex
       end.
Proof.
  induction keys as [|key rest IH]; intros idx le w resp le' w' Hne Hn Hrun;
    [congruence|].
  rewrite try_keys_cons in Hrun. cbn [length] in Hn.
  assert (Hstop : forall (resp0 : option ProviderResponse) (le0 : option string),
    (@Ok (option ProviderResponse * option string) (resp0, le0),
     mkWorld (clock w) (log w ++ [EvPost ep key pl])) = (Ok (resp, le'), w') ->
    match resp0 with
    | Some r => provider E idx ep key pl = Ok r
    | None => exists ex, provider E idx ep key pl = Raise ex /\ le0 = Some ex
    end ->
    exists ks k,
      ks ++ [k] `prefix_of` key :: rest
      /\ w' = mkWorld (clock w) (log w ++ posts ep pl (ks ++ [k]))
      /\ (forall j kj, ks !! j = Some kj ->
            retryable (provider E (idx + j) ep kj pl) = true)
      /\ match resp with
         | Some r => provider E (idx + length ks) ep k pl = Ok r
         | None => exists ex, provider E (idx + length ks) ep k pl = Raise ex
                              /\ le' = Some ex
         end).
  { intros resp0 le0 Heq Hout. injection Heq as <- <- <-.
    exists [], key. cbn [app length]. rewrite Nat.add_0_r.
    split; [apply prefix_cons, prefix_nil|]. split; [reflexivity|].
    split; [intros j kj Hj; discriminate | exact Hout]. }
  assert (Hgo : forall le1,
    negb uf || Nat.eqb idx (n - 1) = false ->
    retryable (provider E idx ep key pl) = true ->
    try_keys E uf ep pl n (S idx) rest le1
      (mkWorld (clock w) (log w ++ [EvPost ep key pl])) = (Ok (resp, le'), w') ->
    exists ks k,
      ks ++ [k] `prefix_of` key :: rest
      /\ w' = mkWorld (clock w) (log w ++ posts ep pl (ks ++ [k]))
      /\ (forall j kj, ks !! j = Some kj ->
            retryable (provider E (idx + j) ep kj pl) = true)
      /\ match resp with
         | Some r => provider E (idx + length ks) ep k pl = Ok r
         | None => exists ex, provider E (idx + length ks) ep k pl = Raise ex
                              /\ le' = Some ex
         end).
  { intros le1 Hcond Hretry Hrec.
    assert (Hrest : rest <> []).
    { intros ->. apply orb_false_iff in Hcond as [_ Hidx].
      apply Nat.eqb_neq in Hidx. cbn in Hn. lia. }
    destruct (IH (S idx) le1 _ resp le' w' Hrest ltac:(lia) Hrec)
      as (ks & k & Hpfx & Hw & Hks & Hout).
    exists (key :: ks), k. cbn [app length].
    split; [apply prefix_cons; exact Hpfx|].
    split; [rewrite Hw; cbn [clock log]; unfold posts; cbn [map];
            rewrite <- app_assoc; reflexivity|].
    split.
    - intros [|j] kj Hj; cbn in Hj.
      + injection Hj as <-. rewrite Nat.add_0_r. exact Hretry.
      + replace (idx + S j)%nat with (S idx + j)%nat by lia. eauto.
    - replace (idx + S (length ks))%nat with (S idx + length ks)%nat by lia.
      exact Hout. }
  destruct (provider E idx ep key pl) as [r|ex] eqn:Hp.
  - destruct (p_status_code r =? 200); [apply (Hstop _ _ Hrun); reflexivity|].
    destruct (negb uf || Nat.eqb idx (n - 1)) eqn:Hcond;
      [apply (Hstop _ _ Hrun); reflexivity|].
    destruct (in_fallback_statuses (p_status_code r)) eqn:Hin; cbn [negb] in Hrun;
      [|apply (Hstop _ _ Hrun); reflexivity].
    apply (Hgo le); [reflexivity | exact Hin | exact Hrun].
  - destruct (negb uf || Nat.eqb idx (n - 1)) eqn:Hcond.
    + apply (Hstop _ _ Hrun). eauto.
    + apply (Hgo (Some ex)); [reflexivity | reflexivity | exact Hrun].
Qed.

(** X2.  On a non-empty chain the provider loop posts with the keys in
    order up to some key and stops there: every key before it gave a
    status of the fallback list or an exception, and what the loop leaves
    is the outcome of that last post, namely its response, or no response
    and its exception message as [last_error].  In particular a request
    failure always carries the message of the last exception raised. *)
Theorem loop_leaves_last_outcome (E : Env) (use_fallback : bool) (ep : string)
    (pl : Payload) (keys : list string) (le : option string) (w : World) :
  keys <> [] ->
  exists ks k resp le',
    try_keys E use_fallback ep pl (length keys) 0 keys le w =
      (Ok (resp, le'), mkWorld (clock w) (log w ++ posts ep pl (ks ++ [k])))
    /\ ks ++ [k] `prefix_of` keys
    /\ (forall j kj, ks !! j = Some kj ->
          retryable (provider E j ep kj pl) = true)
    /\ match resp with
       | Some r => provider E (length ks) ep k pl = Ok r
       | None => exists ex, provider E (length ks) ep k pl = Raise ex
                            /\ le' = Some ex
       end.
Proof.
  intros Hne.
  destruct (try_keys_shape E use_fallback ep pl (length keys) keys 0%nat le w)
    as (resp & le' & ks0 & Hrun & _).
  destruct (try_keys_last_gen E use_fallback ep pl (length keys) keys 0%nat le w
              resp le' _ Hne eq_refl Hrun) as (ks & k & Hpfx & Hw & Hks & Hout).
  exists ks, k, resp, le'. rewrite Hrun, Hw. auto.
Qed.

(** With the primary key over quota and the fallback key working, the
    loop posts with both keys and leaves the fallback's response. *)
Lemma loop_leaves_last_outcome_witness :
  exists ks k resp le',
    try_keys Scenario.env_fallback true SERPER_SEARCH_ENDPOINT Scenario.payload0
             (length ["K1"; "K2"]) 0 ["K1"; "K2"] None Scenario.w0 =
      (Ok (resp, le'),
       mkWorld (clock Scenario.w0)
         (log Scenario.w0
          ++ posts SERPER_SEARCH_ENDPOINT Scenario.payload0 (ks ++ [k])))
    /\ ks ++ [k] `prefix_of` ["K1"; "K2"]
    /\ (forall j kj, ks !! j = Some kj ->
          retryable (provider Scenario.env_fallback j SERPER_SEARCH_ENDPOINT kj
                              Scenario.payload0) = true)
    /\ match resp with
       | Some r => provider Scenario.env_fallback (length ks)
                     SERPER_SEARCH_ENDPOINT k Scenario.payload0 = Ok r
       | None => exists ex, provider Scenario.env_fallback (length ks)
                              SERPER_SEARCH_ENDPOINT k Scenario.payload0 = Raise ex
                            /\ le' = Some ex
       end.
Proof.
  apply (loop_leaves_last_outcome Scenario.env_fallback true SERPER_SEARCH_ENDPOINT
           Scenario.payload0 ["K1"; "K2"] None Scenario.w0).
  discriminate.
Defined.

(** ** Entry points: limiter, keys and modes *)

(** X3.  The rate limiter is consulted before any provider request.  If
    it refuses the call, both entry points return their rate-limit error
    after recording the elapsed time and the effective count, and if it
    raises, both leave through their handler; in either case nothing is
    posted to the provider. *)
Theorem limiter_gates_provider (E : Env) (query search_type : string)
    (num_results : option Z) (include_html : bool)
    (api_key fallback_api_key : option string) (use_fallback : bool) (w : World) :
  let d := time_reading E (S (clock w)) - time_reading E (clock w) in
  keys_in_order E api_key fallback_api_key use_fallback <> [] ->
  limiter_hit_result E <> Ok true ->
  exists xt xs tail_t tail_s,
    search_web_exit E query search_type num_results api_key fallback_api_key
      use_fallback w = (Ok xt, mkWorld (S (S (clock w))) (log w ++ tail_t))
    /\ search_web_structured_exit E query search_type num_results include_html
         api_key fallback_api_key use_fallback w
       = (Ok xs, mkWorld (S (S (clock w))) (log w ++ tail_s))
    /\ match limiter_hit_result E with
       | Ok _ =>
           xt = TRateLimit /\ xs = SRateLimit
           /\ tail_t = [EvRecord d (Some (clamp_search_web num_results))]
           /\ tail_s = [EvRecord d (Some (fetch_num num_results))]
       | Raise e =>
           xt = TCaught e /\ xs = SCaught e /\ tail_t = [] /\ tail_s = []
       end.
Proof.
  intros d Hkeys Hlim.
  unfold search_web_exit, search_web_structured_exit.
  destruct (keys_in_order E api_key fallback_api_key use_fallback) as [|k0 ks];
    [congruence|].
  run_monad.
  destruct (limiter_hit_result E) as [[|]|e]; [congruence | |]; cbn [negb].
  - do 4 eexists. split; [reflexivity|]. split; [reflexivity|].
    repeat split; reflexivity.
  - exists (TCaught e), (SCaught e), [], []. rewrite app_nil_r.
    repeat split; reflexivity.
Qed.

Lemma limiter_gates_provider_witness :
  exists xt xs tail_t tail_s,
    search_web_exit env_limited "q" "news" (Some 5) None None true Scenario.w0
      = (Ok xt, mkWorld 2 (log Scenario.w0 ++ tail_t))
    /\ search_web_structured_exit env_limited "q" "news" (Some 5) true
         None None true Scenario.w0
       = (Ok xs, mkWorld 2 (log Scenario.w0 ++ tail_s))
    /\ (xt = TRateLimit /\ xs = SRateLimit
        /\ tail_t = [EvRecord 10 (Some 5)] /\ tail_s = [EvRecord 10 (Some 5)]).
Proof.
  apply (limiter_gates_provider env_limited "q" "news" (Some 5) true
           None None true Scenario.w0); discriminate.
Defined.

(** X4.  With an empty credential chain the two entry points differ.
    [search_web] returns its configuration error at once, whatever the
    rate limiter would answer, after recording (0, num_results as given).
    [search_web_structured] has no such check: once the limiter lets it
    through it posts nothing and reports "request_failed" with the summary
    "Request error: unknown error", after recording the elapsed time and
    the effective count. *)
Theorem empty_chain_paths (E : Env) (query search_type : string)
    (num_results : option Z) (include_html : bool)
    (api_key fallback_api_key : option string) (use_fallback : bool) (w : World) :
  let d := time_reading E (S (clock w)) - time_reading E (clock w) in
  keys_in_order E api_key fallback_api_key use_fallback = [] ->
  search_web_exit E query search_type num_results api_key fallback_api_key
    use_fallback w
  = (Ok TNoKey, mkWorld (S (clock w)) (log w ++ [EvRecord 0 num_results]))
  /\ (limiter_hit_result E = Ok true ->
      search_web_structured_exit E query search_type num_results include_html
        api_key fallback_api_key use_fallback w
      = (Ok (SRequestFailed None),
         mkWorld (S (S (clock w)))
                 (log w ++ [EvRecord d (Some (fetch_num num_results))]))
      /\ render_structured query (normalize_search_type search_type)
           (SRequestFailed None) !! "summary"
         = Some (VStr "Request error: unknown error")
      /\ render_structured query (normalize_search_type search_type)
           (SRequestFailed None) !! "error"
         = Some (VStr "request_failed")).
Proof.
  intros d Hkeys. split.
  - unfold search_web_exit. rewrite Hkeys. reflexivity.
  - intros Hlim. split; [|split].
    + unfold search_web_structured_exit. rewrite Hkeys. run_monad.
      rewrite Hlim. reflexivity.
    + unfold render_structured. simplify_map_eq. reflexivity.
    + unfold render_structured. simplify_map_eq. reflexivity.
Qed.

Lemma empty_chain_paths_witness :
  search_web_exit Scenario.env_no_key "q" "search" None None None true Scenario.w0
  = (Ok TNoKey, mkWorld 1 [EvRecord 0 None])
  /\ search_web_structured_exit Scenario.env_no_key "q" "search" None true
       None None true Scenario.w0
     = (Ok (SRequestFailed None), mkWorld 2 [EvRecord 10 (Some 4)]).
Proof.
  destruct (empty_chain_paths Scenario.env_no_key "q" "search" None true
              None None true Scenario.w0 eq_refl) as [Ht Hs].
  split; [exact Ht|]. destruct (Hs eq_refl) as [Hrun _]. exact Hrun.
Defined.

(** X5.  A search type other than "search" and "news" (the test is exact,
    so "News" is one) makes both entry points behave in every respect as
    for "search": same requests, same recording, same returned value. *)
Theorem unknown_search_type_is_search (E : Env) (query search_type : string)
    (num_results : option Z) (include_html : bool)
    (api_key fallback_api_key : option string) (use_fallback : bool) (w : World) :
  search_type <> "search" -> search_type <> "news" ->
  search_web E query search_type num_results api_key fallback_api_key
             use_fallback w
  = search_web E query "search" num_results api_key fallback_api_key
               use_fallback w
  /\ search_web_structured E query search_type num_results include_html
       api_key fallback_api_key use_fallback w
     = search_web_structured E query "search" num_results include_html
         api_key fallback_api_key use_fallback w.
Proof.
  intros Hs Hn.
  assert (Hnorm : normalize_search_type search_type
                  = normalize_search_type "search").
  { unfold normalize_search_type. apply String.eqb_neq in Hs, Hn.
    rewrite Hs, Hn. reflexivity. }
  unfold search_web, search_web_structured, search_web_exit,
    search_web_structured_exit.
  rewrite Hnorm. split; reflexivity.
Qed.

Lemma unknown_search_type_is_search_witness :
  search_web Scenario.env_two "q" "News" (Some 2) None None true Scenario.w0
  = search_web Scenario.env_two "q" "search" (Some 2) None None true Scenario.w0
  /\ search_web_structured Scenario.env_two "q" "News" (Some 2) true None None
       true Scenario.w0
     = search_web_structured Scenario.env_two "q" "search" (Some 2) true None
         None true Scenario.w0.
Proof.
  apply (unknown_search_type_is_search Scenario.env_two "q" "News" (Some 2) true
           None None true Scenario.w0); discriminate.
Defined.

Lemma prefix_length_le {A} (l k : list A) : l `prefix_of` k -> (length l <= length k)%nat.
Proof. intros [m ->]. rewrite length_app. lia. Qed.

Lemma prefix_Forall {A} (P : A -> Prop) (l k : list A) :
  l `prefix_of` k -> Forall P k -> Forall P l.
Proof. intros [m ->] H. apply Forall_app in H as [H _]. exact H. Qed.

(** X6.  Every call of either entry point makes at most two provider
    requests.  They are posted before anything is recorded, go to the news
    endpoint exactly when the search type is "news", carry the query text
    and a result count between 1 and 20, and use non-empty keys of the
    credential chain in the order of the chain. *)
Theorem provider_requests_bounded (E : Env) (query search_type : string)
    (num_results : option Z) (include_html : bool)
    (api_key fallback_api_key : option string) (use_fallback : bool) (w : World) :
  let keys := keys_in_order E api_key fallback_api_key use_fallback in
  let ep := if String.eqb search_type "news"
            then SERPER_NEWS_ENDPOINT else SERPER_SEARCH_ENDPOINT in
  let news := String.eqb search_type "news" in
  exists ks_t ks_s nt ns tail_t tail_s,
    log (search_web_exit E query search_type num_results api_key
           fallback_api_key use_fallback w).2
      = log w ++ posts ep (mkPayload query nt news) ks_t ++ tail_t
    /\ log (search_web_structured_exit E query search_type num_results
              include_html api_key fallback_api_key use_fallback w).2
       = log w ++ posts ep (mkPayload query ns news) ks_s ++ tail_s
    /\ ks_t `prefix_of` keys /\ ks_s `prefix_of` keys
    /\ (length ks_t <= 2)%nat /\ (length ks_s <= 2)%nat
    /\ Forall (fun k => k <> EmptyString) ks_t
    /\ Forall (fun k => k <> EmptyString) ks_s
    /\ 1 <= nt <= 20 /\ 1 <= ns <= 20
    /\ Forall (fun ev => is_post ev = false) tail_t
    /\ Forall (fun ev => is_post ev = false) tail_s.
Proof.
  intros keys ep news.
  destruct (keys_in_order_facts E api_key fallback_api_key use_fallback)
    as (Hlen & _ & Hne & _).
  fold keys in Hlen, Hne.
  destruct (text_run E query search_type num_results api_key fallback_api_key
              use_fallback w) as (xt & ks_t & Hpt & Ht).
  destruct (structured_run E query search_type num_results include_html api_key
              fallback_api_key use_fallback w) as (xs & ks_s & Hps & Hs).
  fold keys in Hpt, Hps. cbv zeta in Ht, Hs.
  assert (Hep : endpoint_of (normalize_search_type search_type) = ep
                /\ is_news (normalize_search_type search_type) = news).
  { unfold endpoint_of, is_news, normalize_search_type, ep, news.
    destruct (String.eqb search_type "news") eqn:Hn.
    - rewrite orb_true_r, Hn. auto.
    - destruct (String.eqb search_type "search"); cbn; [rewrite Hn|]; auto. }
  destruct Hep as [Hep Hnews]. rewrite Hep, Hnews in Ht, Hs.
  exists ks_t, ks_s, (clamp_search_web num_results), (fetch_num num_results).
  do 2 eexists. rewrite Ht, Hs. cbn [snd log].
  split; [reflexivity|]. split; [reflexivity|].
  split; [exact Hpt|]. split; [exact Hps|].
  split; [apply prefix_length_le in Hpt; lia|].
  split; [apply prefix_length_le in Hps; lia|].
  split; [exact (prefix_Forall _ _ _ Hpt Hne)|].
  split; [exact (prefix_Forall _ _ _ Hps Hne)|].
  split; [apply clamp_search_web_range|]. split; [apply fetch_num_range|].
  split.
  - destruct xt; repeat constructor.
  - destruct xs; repeat constructor.
Qed.

Lemma fetch_num_agrees (num_results : option Z) :
  num_results <> Some 0 -> fetch_num num_results = clamp_search_web num_results.
Proof.
  unfold fetch_num, clamp_search_web. destruct num_results as [n|]; [|reflexivity].
  intros Hn. destruct (n =? 0) eqn:H0; [|reflexivity].
  apply Z.eqb_eq in H0. congruence.
Qed.

Lemma filter_post_record (l : list Event) (d : Z) (n : option Z) :
  List.filter is_post (l ++ [EvRecord d n]) = List.filter is_post l.
Proof. rewrite List.filter_app. cbn. apply app_nil_r. Qed.

(** X7.  For the same arguments and the same outside world, [search_web]
    and [search_web_structured] post the same requests to the provider,
    in the same order, unless num_results is 0 (where the first asks for
    1 result and the second for 4). *)
Theorem same_provider_requests (E : Env) (query search_type : string)
    (num_results : option Z) (include_html : bool)
    (api_key fallback_api_key : option string) (use_fallback : bool) (w : World) :
  num_results <> Some 0 ->
  List.filter is_post
    (log (search_web_exit E query search_type num_results api_key
            fallback_api_key use_fallback w).2)
  = List.filter is_post
      (log (search_web_structured_exit E query search_type num_results
              include_html api_key fallback_api_key use_fallback w).2).
Proof.
  intros Hn. unfold search_web_exit, search_web_structured_exit.
  rewrite (fetch_num_agrees num_results Hn).
  destruct (keys_in_order E api_key fallback_api_key use_fallback) as [|k0 ks].
  { run_monad. cbn [try_keys]. run_monad.
    destruct (limiter_hit_result E) as [[|]|e]; cbn [negb snd log];
      rewrite ?filter_post_record; reflexivity. }
  run_monad.
  destruct (limiter_hit_result E) as [[|]|e]; cbn [negb snd log];
    [|rewrite ?filter_post_record; reflexivity..].
  destruct (try_keys _ _ _ _ _ _ _ _ _) as [[[[resp|] le]|e] w1];
    cbn [snd log]; [|rewrite ?filter_post_record; reflexivity..].
  destruct (negb (p_status_code resp =? 200));
    [cbn [snd log]; rewrite ?filter_post_record; reflexivity|].
  destruct (p_json resp) as [body|e];
    [|cbn [snd log]; rewrite ?filter_post_record; reflexivity].
  destruct (hits_of _ body) as [|h hs];
    [cbn [snd log]; rewrite ?filter_post_record; reflexivity|].
  destruct (st_loop _ _ _ _ _ _ _ _) as [[items blocks] n].
  destruct (links_of (h :: hs)) as [urls|e];
    [|cbn [snd log]; rewrite ?filter_post_record; reflexivity].
  destruct (sw_loop _ _ _ _ _) as [[[|c cs] m]|e];
    cbn [snd log]; rewrite ?filter_post_record; reflexivity.
Qed.

Lemma same_provider_requests_witness :
  List.filter is_post
    (log (search_web_exit Scenario.env_fallback "q" "search" (Some 35) None None
            true Scenario.w0).2)
  = List.filter is_post
      (log (search_web_structured_exit Scenario.env_fallback "q" "search"
              (Some 35) true None None true Scenario.w0).2).
Proof.
  apply (same_provider_requests Scenario.env_fallback "q" "search" (Some 35) true
           None None true Scenario.w0).
  discriminate.
Defined.

(** ** Naive text and tag stripping *)

Lemma append_cons (c : ascii) (a b : string) :
  String c a +:+ b = String c (a +:+ b).
Proof. reflexivity. Qed.

Lemma append_nil_r (a : string) : a +:+ EmptyString = a.
Proof. induction a as [|c a IH]; [reflexivity|]. rewrite append_cons, IH. reflexivity. Qed.

Lemma append_snoc (a b : string) (c : ascii) :
  (a +:+ String c EmptyString) +:+ b = a +:+ String c b.
Proof.
  induction a as [|x a IH]; [reflexivity|]. rewrite !append_cons, IH. reflexivity.
Qed.

Lemma collapse_ws_single_spaced (s : string) :
  forall in_run, single_spaced in_run (PyStr.collapse_ws_aux in_run s) = true.
Proof.
  induction s as [|c r IH]; intros in_run; [reflexivity|].
  cbn [PyStr.collapse_ws_aux]. destruct (PyStr.isspace c) eqn:Hc.
  - destruct in_run; [apply IH|]. cbn. apply IH.
  - cbn [single_spaced]. rewrite Hc. apply IH.
Qed.

Lemma lstrip_single_spaced (s : string) :
  forall b, single_spaced b s = true ->
  forall b', single_spaced b' (PyStr.lstrip s) = true.
Proof.
  induction s as [|c r IH]; intros b H b'; [reflexivity|].
  cbn [single_spaced] in H. cbn [PyStr.lstrip].
  destruct (PyStr.isspace c) eqn:Hc.
  - apply andb_true_iff in H as [_ H]. eapply IH; eauto.
  - cbn [single_spaced]. rewrite Hc. exact H.
Qed.

Lemma rstrip_single_spaced (s : string) :
  forall b, single_spaced b s = true -> single_spaced b (PyStr.rstrip s) = true.
Proof.
  induction s as [|c r IH]; intros b H; [reflexivity|].
  rewrite rstrip_cons. cbn [single_spaced] in H.
  destruct (PyStr.isspace c) eqn:Hc.
  - apply andb_true_iff in H as [Hhead H]. specialize (IH true H).
    destruct (PyStr.rstrip r) as [|a t]; [reflexivity|].
    cbn [single_spaced]. rewrite Hc, Hhead. exact IH.
  - specialize (IH false H).
    destruct (PyStr.rstrip r) as [|a t]; cbn [single_spaced]; rewrite Hc;
      [reflexivity | exact IH].
Qed.

(** X8.  The naive text of any body is whitespace-normalised: its only
    whitespace characters are single spaces, never two in a row, and it
    neither starts nor ends with one. *)
Theorem naive_text_normalized (html : string) :
  single_spaced true (naive_text html) = true
  /\ PyStr.lstrip (naive_text html) = naive_text html
  /\ PyStr.rstrip (naive_text html) = naive_text html.
Proof.
  unfold naive_text, PyStr.strip. split; [|split].
  - eapply lstrip_single_spaced. apply rstrip_single_spaced.
    apply (collapse_ws_single_spaced _ false).
  - apply lstrip_idem.
  - apply rstrip_lstrip_fix, rstrip_idem.
Qed.

Lemma sub_tags_aux_plain (a rest : string) :
  no_char "<" a = true ->
  PyStr.sub_tags_aux None (a +:+ rest) = a +:+ PyStr.sub_tags_aux None rest.
Proof.
  induction a as [|c a IH]; intros H; [reflexivity|].
  cbn [no_char] in H. apply andb_true_iff in H as [Hc Ha].
  rewrite !append_cons. cbn [PyStr.sub_tags_aux].
  apply negb_true_iff in Hc. rewrite Hc, IH by assumption. reflexivity.
Qed.

Lemma sub_tags_aux_open (s : string) :
  forall buf, no_char ">" s = true ->
  PyStr.sub_tags_aux (Some buf) s = String "<" (buf +:+ s).
Proof.
  induction s as [|c r IH]; intros buf H.
  - cbn. rewrite append_nil_r. reflexivity.
  - cbn [no_char] in H. apply andb_true_iff in H as [Hc Hr].
    apply negb_true_iff in Hc. cbn [PyStr.sub_tags_aux]. rewrite Hc.
    rewrite IH by assumption. rewrite append_snoc. reflexivity.
Qed.

Lemma sub_tags_aux_close (t rest : string) :
  forall buf, no_char ">" t = true ->
  buf +:+ t <> EmptyString ->
  PyStr.sub_tags_aux (Some buf) (t +:+ String ">" rest)
  = String " " (PyStr.sub_tags_aux None rest).
Proof.
  induction t as [|c t IH]; intros buf Ht Hne.
  - cbn. rewrite append_nil_r in Hne. destruct buf; [congruence | reflexivity].
  - cbn [no_char] in Ht. apply andb_true_iff in Ht as [Hc Ht].
    apply negb_true_iff in Hc. rewrite append_cons.
    cbn [PyStr.sub_tags_aux]. rewrite Hc. apply IH; [exact Ht|].
    rewrite append_snoc. destruct buf; discriminate.
Qed.

(** X9.  Tag stripping replaces a complete tag by one space and leaves
    everything else alone: text before the first '<' is copied; an
    opening '<', a non-empty run without '>' and the closing '>' become a
    single space; and a text in which no '>' occurs at all, or no '<'
    occurs at all, is returned unchanged. *)
Theorem sub_tags_behaviour :
  (forall a t rest,
     no_char "<" a = true -> no_char ">" t = true -> t <> EmptyString ->
     PyStr.sub_tags (a +:+ String "<" (t +:+ String ">" rest))
     = a +:+ String " " (PyStr.sub_tags rest))
  /\ (forall s, no_char "<" s = true -> PyStr.sub_tags s = s)
  /\ (forall s, no_char ">" s = true -> PyStr.sub_tags s = s).
Proof.
  unfold PyStr.sub_tags. split; [|split].
  - intros a t rest Ha Ht Hne. rewrite sub_tags_aux_plain by exact Ha.
    cbn [PyStr.sub_tags_aux]. cbn [Ascii.eqb Bool.eqb].
    rewrite sub_tags_aux_close; [reflexivity | exact Ht | exact Hne].
  - intros s Hs. rewrite <- (append_nil_r s) at 1.
    rewrite sub_tags_aux_plain by exact Hs. cbn. apply append_nil_r.
  - induction s as [|c r IH]; intros H; [reflexivity|].
    cbn [no_char] in H. apply andb_true_iff in H as [Hc Hr].
    cbn [PyStr.sub_tags_aux]. destruct (Ascii.eqb c "<") eqn:Hlt.
    + apply Ascii.eqb_eq in Hlt. subst c.
      rewrite sub_tags_aux_open by exact Hr. reflexivity.
    + rewrite IH by exact Hr. reflexivity.
Qed.

Lemma sub_tags_behaviour_witness :
  PyStr.sub_tags "Hello <b class=x>world"
  = "Hello " +:+ String " " (PyStr.sub_tags "world")
  /\ PyStr.sub_tags "a < b" = "a < b".
Proof.
  destruct sub_tags_behaviour as (Htag & _ & Hopen).
  split.
  - apply (Htag "Hello " "b class=x" "world"); [reflexivity | reflexivity | discriminate].
  - apply Hopen. reflexivity.
Defined.

(** ** Extractor result *)

Lemma truthy_true_iff (s : string) : PyStr.truthy s = true <-> s <> EmptyString.
Proof. destruct s; split; congruence || discriminate || auto. Qed.

Lemma robust_extract_stripped (E : Env) (html : PyArg) (url text : string) :
  _robust_extract_main_text E html url = Ok text -> PyStr.strip text = text.
Proof.
  unfold _robust_extract_main_text.
  destruct html as [h|]; [|intros [= <-]; reflexivity].
  destruct (negb (PyStr.truthy (PyStr.strip h))); [intros [= <-]; reflexivity|].
  destruct (PyStr.truthy _ && PyStr.truthy _); intros [= <-].
  - apply strip_idem.
  - apply naive_text_stripped.
Qed.

(** X10.  What [_robust_extract_main_text] returns never starts or ends
    with whitespace.  When trafilatura returns text that is not only
    whitespace for a body that is not only whitespace, the result is that
    text stripped, and the naive fallback is not used. *)
Theorem robust_extract_result (E : Env) (html : PyArg) (url : string) :
  (forall text, _robust_extract_main_text E html url = Ok text ->
                PyStr.strip text = text)
  /\ (forall h t,
        html = AStr h -> PyStr.strip h <> EmptyString ->
        trafilatura_extract E h (if PyStr.truthy url then Some url else None)
          = Ok (Some t) ->
        PyStr.strip t <> EmptyString ->
        _robust_extract_main_text E html url = Ok (PyStr.strip t)).
Proof.
  split.
  - intros text. apply robust_extract_stripped.
  - intros h t -> Hh Ht Hs. unfold _robust_extract_main_text, extract_or_empty.
    rewrite Ht. cbn [res_bind res_default default from_option id].
    apply truthy_true_iff in Hh, Hs. rewrite Hh, Hs. cbn [negb].
    assert (PyStr.truthy t = true) as ->; [|reflexivity].
    destruct t; [discriminate | reflexivity].
Qed.

Lemma robust_extract_result_witness :
  _robust_extract_main_text env_extracts
    (AStr "<html><body><nav>menu</nav><p>Main text</p></body></html>")
    "https://a.example/x"
  = Ok "Main text".
Proof.
  destruct (robust_extract_result env_extracts
              (AStr "<html><body><nav>menu</nav><p>Main text</p></body></html>")
              "https://a.example/x") as [_ H].
  rewrite (H _ _ eq_refl ltac:(discriminate) eq_refl ltac:(discriminate)).
  reflexivity.
Defined.

(** ** Domain of a url *)

Lemma split_aux_plain (sep : ascii) (a rest : string) :
  forall cur, no_char sep a = true ->
  PyStr.split_aux sep cur (a +:+ rest) = PyStr.split_aux sep (cur +:+ a) rest.
Proof.
  induction a as [|c a IH]; intros cur H.
  - cbn. rewrite append_nil_r. reflexivity.
  - cbn [no_char] in H. apply andb_true_iff in H as [Hc Ha].
    apply negb_true_iff in Hc. rewrite append_cons. cbn [PyStr.split_aux].
    rewrite Hc, IH by exact Ha. rewrite append_snoc. reflexivity.
Qed.

Lemma split_aux_sep (sep : ascii) (cur rest : string) :
  PyStr.split_aux sep cur (String sep rest)
  = cur :: PyStr.split_aux sep EmptyString rest.
Proof. cbn [PyStr.split_aux]. rewrite Ascii.eqb_refl. reflexivity. Qed.

Lemma split_aux_head (sep : ascii) (s : string) :
  forall cur, exists x xs, PyStr.split_aux sep cur s = x :: xs.
Proof.
  induction s as [|c r IH]; intros cur; cbn [PyStr.split_aux]; [eauto|].
  destruct (Ascii.eqb c sep); eauto.
Qed.

Lemma split_aux_none (sep : ascii) (s : string) :
  forall cur, no_char sep s = true -> PyStr.split_aux sep cur s = [cur +:+ s].
Proof.
  intros cur H. rewrite <- (append_nil_r s) at 1.
  rewrite split_aux_plain by exact H. reflexivity.
Qed.

(** X11.  For a link of the form scheme//host or scheme//host/path, where
    neither the scheme part nor the host contains '/', the domain both
    entry points compute is the host with every "www." removed.  A link
    with fewer than two '/' has no third component: the lookup raises
    IndexError, and [search_web_structured] records the empty domain. *)
Theorem domain_of_link :
  (forall scheme host rest,
     no_char "/" scheme = true -> no_char "/" host = true ->
     rest = EmptyString \/ (exists path, rest = String "/" path) ->
     let url := scheme +:+ String "/" (String "/" (host +:+ rest)) in
     domain_of url = Ok (PyStr.remove_www host)
     /\ st_domain url = PyStr.remove_www host)
  /\ (forall a b,
        no_char "/" a = true -> no_char "/" b = true ->
        (domain_of a = Raise "list index out of range"
         /\ st_domain a = EmptyString)
        /\ (domain_of (a +:+ String "/" b) = Raise "list index out of range"
            /\ st_domain (a +:+ String "/" b) = EmptyString)).
Proof.
  split.
  - intros scheme host rest Hs Hh Hrest url.
    assert (Hsplit : PyStr.split "/" url !! 2%nat = Some host).
    { unfold url, PyStr.split. rewrite split_aux_plain by exact Hs.
      rewrite !split_aux_sep. cbn [lookup list_lookup].
      destruct Hrest as [-> | [path ->]].
      - rewrite append_nil_r, split_aux_none by exact Hh. reflexivity.
      - rewrite split_aux_plain by exact Hh. rewrite split_aux_sep. reflexivity. }
    assert (Hd : domain_of url = Ok (PyStr.remove_www host)).
    { unfold domain_of. rewrite Hsplit. reflexivity. }
    split; [exact Hd|]. unfold st_domain. rewrite Hd.
    destruct url eqn:Hu; [|reflexivity].
    unfold url in Hu. destruct scheme; discriminate.
  - intros a b Ha Hb.
    assert (H1 : domain_of a = Raise "list index out of range").
    { unfold domain_of, PyStr.split. rewrite split_aux_none by exact Ha.
      reflexivity. }
    assert (H2 : domain_of (a +:+ String "/" b) = Raise "list index out of range").
    { unfold domain_of, PyStr.split. rewrite split_aux_plain by exact Ha.
      rewrite split_aux_sep, split_aux_none by exact Hb. reflexivity. }
    repeat split; try assumption; unfold st_domain; rewrite ?H1, ?H2;
      match goal with |- (if ?c then _ else _) = _ => destruct c end; reflexivity.
Qed.

Lemma domain_of_link_witness :
  (domain_of "https://www.a.example/x/y" = Ok "a.example"
   /\ st_domain "https://www.a.example/x/y" = "a.example")
  /\ (domain_of "a.example" = Raise "list index out of range"
      /\ st_domain "a.example" = EmptyString).
Proof.
  destruct domain_of_link as [Hurl Hbad]. split.
  - apply (Hurl "https:" "www.a.example" "/x/y");
      [reflexivity | reflexivity | right; eexists; reflexivity].
  - apply (Hbad "a.example" EmptyString); reflexivity.
Defined.

(** ** Items of the structured report *)

Lemma st_extracted_stripped (E : Env) (url : string) (r : PageResponse) (c : string) :
  st_extracted E url r = Some c -> PyStr.strip c = c.
Proof.
  unfold st_extracted.
  destruct (looks_like_html (content_type_of r) (g_text r)) as [[|]|e];
    cbn [res_bind res_default]; try discriminate.
  destruct (g_text r) as [t|e]; cbn [res_bind res_default]; [|discriminate].
  destruct (_robust_extract_main_text E (AStr t) url) as [b|e] eqn:Hb;
    cbn [res_bind res_default]; [|discriminate].
  intros [= <-]. eapply robust_extract_stripped; eauto.
Qed.

Lemma st_cleaned_stripped (E : Env) (url : string) (r : PageResponse) :
  PyStr.strip (st_cleaned E url r) = st_cleaned E url r.
Proof.
  unfold st_cleaned.
  destruct (negb (opt_truthy (st_extracted E url r)) || _).
  - destruct (g_text r) as [t|e]; cbn [res_bind res_default];
      [apply naive_text_stripped | reflexivity].
  - destruct (st_extracted E url r) as [c|] eqn:Hc; [|reflexivity].
    cbn [default from_option id]. eapply st_extracted_stripped; eauto.
Qed.

Lemma build_item_spec (E : Env) (st : string) (ih : bool) (idx : nat)
    (meta : Hit) (response : FetchOutcome) :
  let '(item, block, ok) := build_item E st ih idx meta response in
  item_consistent ih item
  /\ block = (if fetched item then Some (i_web_text_for_chunking item) else None)
  /\ ok = has_text item
  /\ (has_text item = true -> fetched item = true).
Proof.
  unfold build_item. destruct response as [msg|r].
  - unfold item_consistent, fetched, has_text. cbn.
    repeat split; eauto; discriminate.
  - pose proof (st_cleaned_stripped E (default EmptyString (h_link meta)) r) as Hs.
    unfold item_consistent, fetched, has_text. cbn.
    set (cleaned := st_cleaned E (default EmptyString (h_link meta)) r) in *.
    repeat split.
    + destruct (PyStr.truthy cleaned); [apply strip_idem | reflexivity].
    + destruct ih; [reflexivity | intros [x Hx]; discriminate].
    + intros ->. eauto.
    + destruct (PyStr.truthy cleaned) eqn:Ht; [|reflexivity].
      rewrite Hs. symmetry. exact Ht.
Qed.

Lemma st_loop_spec (E : Env) (st : string) (ih : bool)
    (pairs : list (Hit * FetchOutcome)) :
  forall idx acc blocks n,
  exists items,
    st_loop E st ih idx pairs acc blocks n =
      (acc ++ items,
       blocks ++ map i_web_text_for_chunking (List.filter fetched items),
       (n + length (List.filter has_text items))%nat)
    /\ length items = length pairs
    /\ Forall (item_consistent ih) items
    /\ Forall (fun item => has_text item = true -> fetched item = true) items.
Proof.
  induction pairs as [|[meta response] rest IH]; intros idx acc blocks n.
  - exists []. cbn. rewrite !app_nil_r, Nat.add_0_r. auto.
  - cbn [st_loop].
    pose proof (build_item_spec E st ih idx meta response) as Hb.
    destruct (build_item E st ih idx meta response) as [[item block] ok].
    destruct Hb as (Hcons & -> & -> & Himp).
    destruct (IH (S idx) (acc ++ [item])
                (match (if fetched item then Some (i_web_text_for_chunking item)
                        else None) with
                 | Some b => blocks ++ [b]
                 | None => blocks
                 end)
                (if has_text item then S n else n))
      as (items & Hrun & Hlen & Hall & Himps).
    exists (item :: items). rewrite Hrun.
    split; [|split; [cbn; lia | split; constructor; assumption]].
    cbn [List.filter]. f_equal; [f_equal|].
    + rewrite <- app_assoc. reflexivity.
    + destruct (fetched item); cbn [map]; rewrite <- ?app_assoc; reflexivity.
    + destruct (has_text item); cbn [length]; lia.
Qed.

Lemma structured_success_inv (E : Env) (query search_type : string)
    (num_results : option Z) (include_html : bool)
    (api_key fallback_api_key : option string) (use_fallback : bool)
    (w w' : World) (items : list Item) (blocks : list string) (n : nat) :
  let st := normalize_search_type search_type in
  let keys := keys_in_order E api_key fallback_api_key use_fallback in
  search_web_structured_exit E query search_type num_results include_html
    api_key fallback_api_key use_fallback w = (Ok (SSuccess items blocks n), w') ->
  exists resp le w1 body,
    try_keys E use_fallback (endpoint_of st)
      (mkPayload query (fetch_num num_results) (is_news st))
      (length keys) 0 keys None (mkWorld (S (clock w)) (log w))
    = (Ok (Some resp, le), w1)
    /\ p_status_code resp = 200
    /\ p_json resp = Ok body
    /\ hits_of st body <> []
    /\ st_loop E st include_html 0
         (zip (hits_of st body) (gather E (truthy_links (hits_of st body))))
         [] [] 0 = (items, blocks, n).
Proof.
  intros st keys. unfold search_web_structured_exit. fold st keys. run_monad.
  destruct (limiter_hit_result E) as [[|]|e]; cbn [negb]; try discriminate.
  destruct (try_keys _ _ _ _ _ _ _ _ _) as [[[[resp|] le]|e] w1];
    try discriminate.
  destruct (p_status_code resp =? 200) eqn:H200; cbn [negb]; [|discriminate].
  destruct (p_json resp) as [body|e] eqn:Hj; [|discriminate].
  destruct (hits_of st body) as [|h hs] eqn:Hh; [discriminate|].
  destruct (st_loop _ _ _ _ _ _ _ _) as [[items0 blocks0] n0] eqn:Hl.
  intros [= <- <- <- _]. exists resp, le, w1, body. rewrite Hh.
  apply Z.eqb_eq in H200. repeat split; auto; discriminate.
Qed.

(** X12.  In every success report of [search_web_structured], each item
    is consistent: its two block fields are equal; its cleaned_text has
    no leading or trailing whitespace; an item with a status code has no
    error note, its block is the formatted block of its own title, domain,
    url and cleaned_text, and it carries raw_html exactly when include_html
    was set; an item without a status code has an error note and empty
    cleaned_text, block, domain and no raw_html. *)
Theorem structured_items_consistent (E : Env) (query search_type : string)
    (num_results : option Z) (include_html : bool)
    (api_key fallback_api_key : option string) (use_fallback : bool)
    (w w' : World) (items : list Item) (blocks : list string) (n : nat) :
  search_web_structured_exit E query search_type num_results include_html
    api_key fallback_api_key use_fallback w = (Ok (SSuccess items blocks n), w') ->
  Forall (item_consistent include_html) items.
Proof.
  intros Hrun.
  apply structured_success_inv in Hrun
    as (resp & le & w1 & body & _ & _ & _ & _ & Hloop).
  destruct (st_loop_spec E (normalize_search_type search_type) include_html
              (zip (hits_of (normalize_search_type search_type) body)
                   (gather E (truthy_links
                      (hits_of (normalize_search_type search_type) body))))
              0%nat [] [] 0%nat) as (items' & Hspec & _ & Hall & _).
  rewrite Hloop in Hspec. injection Hspec as -> _ _. exact Hall.
Qed.

Lemma filter_length_le {A} (f g : A -> bool) (l : list A) :
  Forall (fun x => f x = true -> g x = true) l ->
  (length (List.filter f l) <= length (List.filter g l))%nat.
Proof.
  induction 1 as [|x l Hx _ IH]; [reflexivity|]. cbn [List.filter].
  destruct (f x) eqn:Hf.
  - rewrite (Hx eq_refl). cbn. lia.
  - destruct (g x); cbn; lia.
Qed.

(** X13.  In every success report of [search_web_structured], the count
    of successful extractions given in the summary is the number of items
    with a non-empty cleaned_text; the blocks joined into
    serper_text_joined are the blocks of the items that have a status
    code, in the order of the items; so the count is at most the number of
    blocks, which is at most the number of items. *)
Theorem structured_counts (E : Env) (query search_type : string)
    (num_results : option Z) (include_html : bool)
    (api_key fallback_api_key : option string) (use_fallback : bool)
    (w w' : World) (items : list Item) (blocks : list string) (n : nat) :
  search_web_structured_exit E query search_type num_results include_html
    api_key fallback_api_key use_fallback w = (Ok (SSuccess items blocks n), w') ->
  n = length (List.filter has_text items)
  /\ blocks = map i_web_text_for_chunking (List.filter fetched items)
  /\ (n <= length blocks <= length items)%nat.
Proof.
  intros Hrun.
  apply structured_success_inv in Hrun
    as (resp & le & w1 & body & _ & _ & _ & _ & Hloop).
  destruct (st_loop_spec E (normalize_search_type search_type) include_html
              (zip (hits_of (normalize_search_type search_type) body)
                   (gather E (truthy_links
                      (hits_of (normalize_search_type search_type) body))))
              0%nat [] [] 0%nat) as (items' & Hspec & Hlen & _ & Himp).
  rewrite Hloop in Hspec. injection Hspec as -> -> ->. cbn [app Nat.add].
  split; [reflexivity|]. split; [reflexivity|].
  rewrite length_map. split; [apply filter_length_le; exact Himp|].
  apply List.filter_length_le.
Qed.

Lemma length_truthy_links (hits : list Hit) :
  (length (truthy_links hits) <= length hits)%nat.
Proof.
  unfold truthy_links. induction hits as [|h hs IH]; [reflexivity|]. cbn.
  destruct (h_link h) as [u|]; [destruct (PyStr.truthy u)|]; cbn; lia.
Qed.

(** X14.  A success report of [search_web_structured] has exactly as many
    items as the provider's hits have non-empty links, hence at most as
    many items as hits: the hits are those of the 200 response the
    provider loop left. *)
Theorem structured_item_count (E : Env) (query search_type : string)
    (num_results : option Z) (include_html : bool)
    (api_key fallback_api_key : option string) (use_fallback : bool)
    (w w' : World) (items : list Item) (blocks : list string) (n : nat) :
  let st := normalize_search_type search_type in
  let keys := keys_in_order E api_key fallback_api_key use_fallback in
  search_web_structured_exit E query search_type num_results include_html
    api_key fallback_api_key use_fallback w = (Ok (SSuccess items blocks n), w') ->
  exists resp le w1 body,
    try_keys E use_fallback (endpoint_of st)
      (mkPayload query (fetch_num num_results) (is_news st))
      (length keys) 0 keys None (mkWorld (S (clock w)) (log w))
    = (Ok (Some resp, le), w1)
    /\ p_json resp = Ok body
    /\ length items = length (truthy_links (hits_of st body))
    /\ (1 <= length (hits_of st body))%nat
    /\ (length items <= length (hits_of st body))%nat.
Proof.
  intros st keys Hrun.
  apply structured_success_inv in Hrun
    as (resp & le & w1 & body & Hkeys & _ & Hj & Hne & Hloop).
  fold st in Hkeys, Hne, Hloop. fold keys in Hkeys.
  exists resp, le, w1, body. split; [exact Hkeys|]. split; [exact Hj|].
  pose proof (st_loop_length E st include_html
                (zip (hits_of st body) (gather E (truthy_links (hits_of st body))))
                0%nat) as Hlen.
  rewrite Hloop in Hlen. cbn [fst] in Hlen.
  rewrite length_zip, length_gather in Hlen.
  pose proof (length_truthy_links (hits_of st body)) as Hle.
  split; [lia|]. split; [|lia].
  destruct (hits_of st body); [congruence | cbn; lia].
Qed.

Lemma structured_items_consistent_witness :
  exists items blocks n w',
    run_two = (Ok (SSuccess items blocks n), w')
    /\ Forall (item_consistent true) items.
Proof.
  eassert (Hrun : run_two = (Ok (SSuccess _ _ _), _))
    by (vm_compute; reflexivity).
  do 4 eexists. split; [exact Hrun|].
  exact (structured_items_consistent _ _ _ _ _ _ _ _ _ _ _ _ _ Hrun).
Defined.

Lemma structured_counts_witness :
  exists items blocks n w',
    run_two = (Ok (SSuccess items blocks n), w')
    /\ n = length (List.filter has_text items)
    /\ blocks = map i_web_text_for_chunking (List.filter fetched items)
    /\ (n <= length blocks <= length items)%nat.
Proof.
  eassert (Hrun : run_two = (Ok (SSuccess _ _ _), _))
    by (vm_compute; reflexivity).
  do 4 eexists. split; [exact Hrun|].
  exact (structured_counts _ _ _ _ _ _ _ _ _ _ _ _ _ Hrun).
Defined.

Lemma structured_item_count_witness :
  exists items blocks n w',
    run_two = (Ok (SSuccess items blocks n), w')
    /\ length items = 2%nat.
Proof.
  eassert (Hrun : run_two = (Ok (SSuccess _ _ _), _))
    by (vm_compute; reflexivity).
  do 4 eexists. split; [exact Hrun|].
  destruct (structured_item_count _ _ _ _ _ _ _ _ _ _ _ _ _ Hrun)
    as (resp & le & w1 & body & _ & _ & _ & _ & _).
  reflexivity.
Defined.

(** ** The two variants on one page *)

(** X15.  Whenever [search_web] keeps a fetched page (the gate passes and
    the extractor returns a non-empty body), [search_web_structured]
    records for the same hit and page exactly the text that [search_web]
    puts into its chunk, and counts the item as a successful extraction. *)
Theorem variants_agree_on_kept_pages (E : Env) (search_type : string)
    (include_html : bool) (idx : nat) (meta : Hit) (r : PageResponse) :
  usable E (meta, FetchResp r) = true ->
  let item := (build_item E search_type include_html idx meta (FetchResp r)).1.1 in
  exists body,
    sw_body E meta r = Some body
    /\ body <> EmptyString
    /\ PyStr.strip body = body
    /\ i_cleaned_text item = body
    /\ (build_item E search_type include_html idx meta (FetchResp r)).2 = true.
Proof.
  unfold usable. cbn [fst snd]. intros Hu. cbv zeta.
  destruct (sw_body E meta r) as [body|] eqn:Hb; [|discriminate].
  cbn [opt_truthy] in Hu.
  assert (Hext : st_extracted E (default EmptyString (h_link meta)) r = Some body)
    by exact Hb.
  pose proof (st_extracted_stripped E _ r body Hext) as Hs.
  assert (Hc : st_cleaned E (default EmptyString (h_link meta)) r = body).
  { unfold st_cleaned. rewrite Hext. cbn [opt_truthy default from_option id].
    rewrite Hs, Hu. reflexivity. }
  exists body. split; [reflexivity|].
  split; [apply truthy_true_iff; exact Hu|]. split; [exact Hs|].
  unfold build_item. cbn [fst snd i_cleaned_text]. rewrite Hc, Hu.
  split; [exact Hs | reflexivity].
Qed.

Lemma variants_agree_on_kept_pages_witness :
  exists body,
    sw_body env_extracts (Scenario.hit "T" "https://a.example/x")
      (mkPage 200 (Some "text/html") (Ok "<html><p>Main text</p></html>"))
    = Some body
    /\ body <> EmptyString
    /\ PyStr.strip body = body
    /\ i_cleaned_text
         (build_item env_extracts "search" false 0
            (Scenario.hit "T" "https://a.example/x")
            (FetchResp (mkPage 200 (Some "text/html")
                               (Ok "<html><p>Main text</p></html>")))).1.1
       = body
    /\ (build_item env_extracts "search" false 0
          (Scenario.hit "T" "https://a.example/x")
          (FetchResp (mkPage 200 (Some "text/html")
                             (Ok "<html><p>Main text</p></html>")))).2 = true.
Proof.
  apply (variants_agree_on_kept_pages env_extracts "search" false 0
           (Scenario.hit "T" "https://a.example/x")
           (mkPage 200 (Some "text/html") (Ok "<html><p>Main text</p></html>"))).
  reflexivity.
Defined.

(** ** Counts and malformed hits in the plain-text variant *)

Lemma sw_loop_grows (E : Env) (st : string) (pairs : list (Hit * FetchOutcome)) :
  forall chunks n chunks' n',
  sw_loop E st pairs chunks n = Ok (chunks', n') ->
  exists cs, chunks' = chunks ++ cs /\ n' = (n + length cs)%nat
             /\ (length cs <= length pairs)%nat.
Proof.
  induction pairs as [|[meta response] rest IH]; intros chunks n chunks' n' Hrun.
  - cbn in Hrun. injection Hrun as <- <-. exists [].
    rewrite app_nil_r, Nat.add_0_r. cbn. auto.
  - cbn [sw_loop] in Hrun.
    destruct (sw_item E st meta response) as [[chunk|]|e]; cbn [res_bind] in Hrun;
      [| |discriminate].
    + apply IH in Hrun as (cs & -> & -> & Hlen). exists (chunk :: cs).
      rewrite <- app_assoc. cbn. repeat split; lia.
    + apply IH in Hrun as (cs & -> & -> & Hlen). exists cs. cbn.
      repeat split; lia.
Qed.

Lemma links_of_length (results : list Hit) (urls : list string) :
  links_of results = Ok urls -> length urls = length results.
Proof.
  revert urls. induction results as [|h hs IH]; intros urls H.
  - injection H as <-. reflexivity.
  - cbn [links_of] in H. destruct (getitem "link" (h_link h)); [|discriminate].
    cbn [res_bind] in H. destruct (links_of hs) as [us|]; [|discriminate].
    injection H as <-. cbn. f_equal. apply IH. reflexivity.
Qed.

Lemma text_exit_inv (E : Env) (query search_type : string)
    (num_results : option Z) (api_key fallback_api_key : option string)
    (use_fallback : bool) (w w' : World) (x : TextExit) :
  let st := normalize_search_type search_type in
  search_web_exit E query search_type num_results api_key fallback_api_key
    use_fallback w = (Ok x, w') ->
  match x with
  | TSuccess chunks n m =>
      exists body urls,
        links_of (hits_of st body) = Ok urls
        /\ m = length (hits_of st body)
        /\ chunks <> []
        /\ sw_loop E st (zip (hits_of st body) (gather E urls)) [] 0
           = Ok (chunks, n)
  | TNoContent m =>
      exists body, m = length (hits_of st body) /\ hits_of st body <> []
  | _ => True
  end.
Proof.
  intros st. unfold search_web_exit. fold st.
  destruct (keys_in_order E api_key fallback_api_key use_fallback) as [|k0 ks].
  { run_monad. intros [= <- _]. exact I. }
  run_monad.
  destruct (limiter_hit_result E) as [[|]|e]; cbn [negb];
    try (intros [= <- _]; exact I).
  destruct (try_keys _ _ _ _ _ _ _ _ _) as [[[[resp|] le]|e] w1];
    try (intros [= <- _]; exact I).
  destruct (negb (p_status_code resp =? 200)); [intros [= <- _]; exact I|].
  destruct (p_json resp) as [body|e]; [|intros [= <- _]; exact I].
  destruct (hits_of st body) as [|h hs] eqn:Hh; [intros [= <- _]; exact I|].
  destruct (links_of (h :: hs)) as [urls|e] eqn:Hl; [|intros [= <- _]; exact I].
  destruct (sw_loop _ _ _ _ _) as [[[|c cs] m]|e] eqn:Hs;
    intros [= <- _]; try exact I.
  - exists body. rewrite Hh. split; [reflexivity | discriminate].
  - exists body, urls. rewrite Hh. repeat split; auto; discriminate.
Qed.

(** X16.  When [search_web] returns its success digest, the count it
    announces ("n out of m") is the number of blocks in the digest, and
    1 <= n <= m.  When it reports that nothing could be extracted, the
    number of results it names is at least 1. *)
Theorem text_counts (E : Env) (query search_type : string)
    (num_results : option Z) (api_key fallback_api_key : option string)
    (use_fallback : bool) (w w' : World) (x : TextExit) :
  search_web_exit E query search_type num_results api_key fallback_api_key
    use_fallback w = (Ok x, w') ->
  match x with
  | TSuccess chunks n m => n = length chunks /\ (1 <= n <= m)%nat
  | TNoContent m => (1 <= m)%nat
  | _ => True
  end.
Proof.
  intros Hrun. apply text_exit_inv in Hrun. destruct x; try exact I.
  - destruct Hrun as (body & -> & Hne).
    destruct (hits_of _ body); [congruence | cbn; lia].
  - destruct Hrun as (body & urls & Hl & -> & Hne & Hloop).
    apply sw_loop_grows in Hloop as (cs & Hcs & -> & Hlen). cbn [app] in Hcs.
    subst cs. rewrite length_zip, length_gather in Hlen.
    apply links_of_length in Hl.
    split; [reflexivity|]. destruct chunks; [congruence|]. cbn in *. lia.
Qed.

Lemma text_counts_witness :
  exists chunks n m w',
    run_two_text = (Ok (TSuccess chunks n m), w')
    /\ n = length chunks /\ (1 <= n <= m)%nat.
Proof.
  eassert (Hrun : run_two_text = (Ok (TSuccess _ _ _), _))
    by (vm_compute; reflexivity).
  do 4 eexists. split; [exact Hrun|].
  exact (text_counts _ _ _ _ _ _ _ _ _ _ Hrun).
Defined.

Lemma links_of_missing (results : list Hit) :
  Exists (fun h => h_link h = None) results -> links_of results = Raise "'link'".
Proof.
  induction results as [|h hs IH]; intros H; [inversion H|].
  cbn [links_of]. destruct (h_link h) as [u|] eqn:Hu; [|reflexivity].
  cbn [getitem res_bind]. apply Exists_cons in H as [H|H]; [congruence|].
  rewrite IH by exact H. reflexivity.
Qed.

(** X17.  If the hits of the provider's 200 response include one without
    a link, [search_web] fails as a whole: it returns its catch-all
    message naming 'link', and nothing is recorded after the provider
    requests, whatever the other hits are. *)
Theorem text_missing_link_fails (E : Env) (query search_type : string)
    (num_results : option Z) (api_key fallback_api_key : option string)
    (use_fallback : bool) (w w1 : World) (resp : ProviderResponse)
    (le : option string) (body : JsonBody) :
  let st := normalize_search_type search_type in
  let keys := keys_in_order E api_key fallback_api_key use_fallback in
  limiter_hit_result E = Ok true ->
  try_keys E use_fallback (endpoint_of st)
    (mkPayload query (clamp_search_web num_results) (is_news st))
    (length keys) 0 keys None (mkWorld (S (clock w)) (log w))
  = (Ok (Some resp, le), w1) ->
  p_status_code resp = 200 ->
  p_json resp = Ok body ->
  Exists (fun h => h_link h = None) (hits_of st body) ->
  search_web E query search_type num_results api_key fallback_api_key
             use_fallback w
  = (Ok "Error occurred while searching: 'link'. Please try again or check your query.",
     mkWorld (S (clock w1)) (log w1)).
Proof.
  intros st keys Hlim Hrun H200 Hj Hex.
  apply (fmap_run (render_text query st) _ w (TCaught "'link'")).
  unfold search_web_exit. fold st keys.
  destruct keys as [|k0 ks]; [discriminate|].
  run_monad. rewrite Hlim. cbn [negb]. rewrite Hrun, H200.
  cbn [Z.eqb Pos.eqb negb]. rewrite Hj.
  destruct (hits_of st body) as [|h hs] eqn:Hh; [inversion Hex|].
  rewrite (links_of_missing (h :: hs) Hex). reflexivity.
Qed.

Lemma text_missing_link_fails_witness :
  search_web Scenario.env_missing_link "q" "search" (Some 2) None None true
             Scenario.w0
  = (Ok "Error occurred while searching: 'link'. Please try again or check your query.",
     mkWorld 2 [EvPost SERPER_SEARCH_ENDPOINT "K1" (mkPayload "q" 2 false)]).
Proof.
  apply (text_missing_link_fails Scenario.env_missing_link "q" "search" (Some 2)
           None None true Scenario.w0
           (mkWorld 1 [EvPost SERPER_SEARCH_ENDPOINT "K1" (mkPayload "q" 2 false)])
           (mkPResp 200 (Ok (mkJson (Some []) (Some Scenario.hits_missing_link))))
           None (mkJson (Some []) (Some Scenario.hits_missing_link)));
    try reflexivity.
  apply Exists_cons_hd. reflexivity.
Defined.

(** ** The pipeline step *)

(** X18.  [perform_web_search] on a query whose text is absent or empty
    returns "Error: No query text provided" and does nothing else: no
    clock reading, no rate-limiter hit, no request, no recording.  On any
    other query it never raises: it returns what [search_web] returns for
    the query text with fallback enabled, asking the provider for the
    query's num_results clamped into [1,20], or for 3 results when the
    query carries no count. *)
Theorem perform_web_search_behaviour (E : Env) (q : QueryContent) (w : World) :
  let query_text := default EmptyString (q_query_text q) in
  let search_type := default "search" (q_search_type q) in
  let count := Z.max 1 (Z.min 20 (default 3 (q_num_results q))) in
  (query_text = EmptyString ->
   perform_web_search E (Ok q) w = (Ok "Error: No query text provided", w))
  /\ (query_text <> EmptyString ->
      perform_web_search E (Ok q) w
        = search_web E query_text search_type (Some (default 3 (q_num_results q)))
                     (q_api_key q) None true w
      /\ exists x ks w',
           perform_web_search E (Ok q) w
             = (Ok (render_text query_text (normalize_search_type search_type) x), w')
           /\ (forall ep key pl, EvPost ep key pl ∈ log w' -> 
                 EvPost ep key pl ∈ log w
                 \/ (pl_q pl = query_text /\ pl_num pl = count /\ key ∈ ks))
           /\ ks `prefix_of` keys_in_order E (q_api_key q) None true
           /\ (q_num_results q = None -> count = 3)).
Proof.
  intros query_text search_type count. split.
  - intros Hq. unfold perform_web_search. run_monad. fold query_text.
    rewrite Hq. reflexivity.
  - intros Hq.
    assert (Hrun : perform_web_search E (Ok q) w
                   = search_web E query_text search_type
                       (Some (default 3 (q_num_results q))) (q_api_key q) None true w).
    { unfold perform_web_search. run_monad. fold query_text search_type.
      apply truthy_true_iff in Hq. rewrite Hq. cbn [negb].
      unfold _run_coro_in_thread.
      destruct (search_web E query_text search_type _ _ None true w) as [[v|e] w'];
        reflexivity. }
    split; [exact Hrun|].
    destruct (text_run E query_text search_type (Some (default 3 (q_num_results q)))
                (q_api_key q) None true w) as (x & ks & Hpfx & Hexit).
    cbv zeta in Hexit.
    exists x, ks. eexists. split; [rewrite Hrun; apply fmap_run; exact Hexit|].
    split; [|split; [exact Hpfx|]].
    + cbn [log]. intros ep key pl Hin.
      apply elem_of_app in Hin as [Hin | Hin]; [left; exact Hin|].
      apply elem_of_app in Hin as [Hin | Hin].
      * right. unfold posts in Hin. apply list_elem_of_fmap in Hin as (k & Heq & Hk).
        injection Heq as -> -> ->. cbn. auto.
      * exfalso. destruct x; cbn in Hin;
          try (apply list_elem_of_singleton in Hin; discriminate);
          inversion Hin.
    + intros Hn. unfold count. rewrite Hn. reflexivity.
Qed.

Lemma perform_web_search_behaviour_witness :
  perform_web_search Scenario.env_two (Ok (mkQuery None (Some "news") (Some 5) None))
    Scenario.w0
  = (Ok "Error: No query text provided", Scenario.w0)
  /\ perform_web_search Scenario.env_two (Ok (mkQuery (Some "q") None None None))
       Scenario.w0
     = search_web Scenario.env_two "q" "search" (Some 3) None None true Scenario.w0.
Proof.
  split.
  - apply (perform_web_search_behaviour Scenario.env_two
             (mkQuery None (Some "news") (Some 5) None) Scenario.w0).
    reflexivity.
  - apply (perform_web_search_behaviour Scenario.env_two
             (mkQuery (Some "q") None None None) Scenario.w0).
    discriminate.
Defined.

(** ** No hits *)

(** X19.  When the provider's 200 response has no hits for the mode (the
    list read is "news" in news mode and "organic" otherwise, and a list
    that is absent counts as empty), both entry points report that
    nothing was found, naming the mode and the query, after recording the
    elapsed time and the effective count; the structured report has no
    items and the error code "no_results". *)
Theorem no_hits_paths (E : Env) (query search_type : string)
    (num_results : option Z) (include_html : bool)
    (api_key fallback_api_key : option string) (use_fallback : bool)
    (w : World) (resp : ProviderResponse) (body : JsonBody) :
  let st := normalize_search_type search_type in
  let keys := keys_in_order E api_key fallback_api_key use_fallback in
  let d := time_reading E (S (clock w)) - time_reading E (clock w) in
  limiter_hit_result E = Ok true ->
  (forall pl, exists le ks,
     try_keys E use_fallback (endpoint_of st) pl (length keys) 0 keys None
              (mkWorld (S (clock w)) (log w))
     = (Ok (Some resp, le), mkWorld (S (clock w)) (log w ++ posts (endpoint_of st) pl ks))) ->
  p_status_code resp = 200 ->
  p_json resp = Ok body ->
  (if String.eqb st "news" then j_news body else j_organic body) = None
  \/ (if String.eqb st "news" then j_news body else j_organic body) = Some [] ->
  (exists w',
     search_web E query search_type num_results api_key fallback_api_key
                use_fallback w
     = (Ok ("No " +:+ st +:+ " results found for query: '" +:+ query +:+
            "'. Try a different search term or search type."), w')
     /\ last (log w') = Some (EvRecord d (Some (clamp_search_web num_results))))
  /\ (exists report w',
        search_web_structured E query search_type num_results include_html
          api_key fallback_api_key use_fallback w = (Ok report, w')
        /\ report !! "results" = Some (VItems [])
        /\ report !! "error" = Some (VStr "no_results")
        /\ report !! "summary"
           = Some (VStr ("No " +:+ st +:+ " results for '" +:+ query +:+ "'"))
        /\ last (log w') = Some (EvRecord d (Some (fetch_num num_results)))).
Proof.
  intros st keys d Hlim Hkeys H200 Hj Hnone.
  assert (Hhits : hits_of st body = []).
  { unfold hits_of, is_news. destruct Hnone as [-> | ->]; reflexivity. }
  split.
  - destruct (Hkeys (mkPayload query (clamp_search_web num_results) (is_news st)))
      as (le & ks & Hrun).
    eexists. split.
    + apply (fmap_run (render_text query st) _ w TNoResults).
      unfold search_web_exit. fold st keys.
      destruct keys as [|k0 ks0]; [discriminate|].
      run_monad. rewrite Hlim. cbn [negb]. rewrite Hrun, H200.
      cbn [Z.eqb Pos.eqb negb]. rewrite Hj, Hhits. reflexivity.
    + cbn [log clock]. apply last_snoc.
  - destruct (Hkeys (mkPayload query (fetch_num num_results) (is_news st)))
      as (le & ks & Hrun).
    do 2 eexists. split.
    + apply (fmap_run (render_structured query st) _ w SNoResults).
      unfold search_web_structured_exit. fold st keys.
      run_monad. rewrite Hlim. cbn [negb]. rewrite Hrun, H200.
      cbn [Z.eqb Pos.eqb negb]. rewrite Hj, Hhits. reflexivity.
    + unfold render_structured. cbn [log clock].
      repeat split; try (simplify_map_eq; reflexivity). apply last_snoc.
Qed.

Lemma no_hits_paths_witness :
  exists w',
    search_web env_no_hits "q" "news" (Some 2) None None true Scenario.w0
    = (Ok "No news results found for query: 'q'. Try a different search term or search type.",
       w')
    /\ last (log w') = Some (EvRecord 10 (Some 2)).
Proof.
  destruct (no_hits_paths env_no_hits "q" "news" (Some 2) true None None true
              Scenario.w0
              (mkPResp 200 (Ok (mkJson None (Some Scenario.two_hits))))
              (mkJson None (Some Scenario.two_hits))) as [Ht _].
  - reflexivity.
  - intros pl. exists None, ["K1"]. reflexivity.
  - reflexivity.
  - reflexivity.
  - left. reflexivity.
  - exact Ht.
Defined.

(** ** A body that cannot be read *)

(** X20.  If reading the body of a fetched page raises, the failure stays
    with the item, whatever its content type says.  [search_web] skips the
    item.  [search_web_structured] keeps it with its status code, no error
    note, an empty cleaned_text, an empty raw_html when include_html is
    set, and a block with an empty text; it is not counted as a
    successful extraction. *)
Theorem unreadable_body_is_contained (E : Env) (search_type : string)
    (include_html : bool) (idx : nat) (meta : Hit) (r : PageResponse)
    (e : string) :
  g_text r = Raise e ->
  sw_item E search_type meta (FetchResp r) = Ok None
  /\ (let '(item, block, ok) :=
        build_item E search_type include_html idx meta (FetchResp r) in
      i_status_code item = Some (g_status_code r)
      /\ i_error item = None
      /\ i_cleaned_text item = EmptyString
      /\ i_raw_html item = (if include_html then Some EmptyString else None)
      /\ block = Some (serper_block (i_title item) (i_domain item) (i_url item)
                                    EmptyString)
      /\ ok = false).
Proof.
  intros He.
  assert (Hsw : sw_body E meta r = None).
  { unfold sw_body, looks_like_html. rewrite He.
    destruct (PyStr.contains "text/html" (content_type_of r)); reflexivity. }
  assert (Hst : st_cleaned E (default EmptyString (h_link meta)) r = EmptyString).
  { unfold st_cleaned.
    change (st_extracted E (default EmptyString (h_link meta)) r)
      with (sw_body E meta r).
    rewrite Hsw, He. reflexivity. }
  split.
  - unfold sw_item. rewrite Hsw. reflexivity.
  - unfold build_item. rewrite Hst, He. cbn. repeat split.
Qed.

Lemma unreadable_body_is_contained_witness :
  sw_item Scenario.env_two "search" (Scenario.hit "T" "https://a.example/x")
    (FetchResp (mkPage 200 (Some "text/html") (Raise "decode error")))
  = Ok None.
Proof.
  apply (unreadable_body_is_contained Scenario.env_two "search" true 0
           (Scenario.hit "T" "https://a.example/x")
           (mkPage 200 (Some "text/html") (Raise "decode error")) "decode error").
  reflexivity.
Defined.
